(** * flask-database-starter: the data-access layer, embedded and verified

    Two generations of the same small application are modelled:

    - [Part1] is [part-1/app.py]: literal SQL statements sent over a
      connection to the single-file store [students.db];
    - [Part3] is [part-3/app.py]: three mapped entities (Teacher, Course,
      Student) and the handlers that create, edit, delete and list them
      through a unit-of-work session.

    The store is explicit state.  A handler is a function from the committed
    store to a reply and the committed store after the request.  Exceptions
    that the handlers do not catch (a missing form field, a constraint
    violation, a missing table) are values of an error type, so that "the
    request fails" is a statement about the reply.

    Row identifiers are taken as unbounded integers: the 64-bit limit of the
    store's row identifiers is not modelled. *)

From Stdlib Require Import ZArith List String Ascii Bool Lia.
From Stdlib Require Import Sorted Permutation.
Import ListNotations.

Local Open Scope string_scope.
Local Open Scope list_scope.
Local Open Scope Z_scope.

(** ** Shared helpers *)

(** Largest element of a list of row identifiers, 0 for the empty list. *)
Definition max_rowid (ids : list Z) : Z := fold_right Z.max 0 ids.

(** The one-character string holding a double quote. *)
Definition dquote : string := String "034"%char EmptyString.

(** ** Generation A: [part-1/app.py] *)

Module Part1.

(** A row of the table [students]:
    [id INTEGER PRIMARY KEY AUTOINCREMENT], and three [TEXT NOT NULL]
    columns.  No column carries a uniqueness constraint. *)
Record row := { id : Z; name : string; email : string; course : string }.

(** The table with its [AUTOINCREMENT] counter (the largest identifier the
    table has ever handed out). *)
Record table := { rows : list row; sequence : Z }.

(** The file [students.db]: the table [students] exists or not. *)
Record database := { students : option table }.

Definition empty_database : database := {| students := None |}.

(** What a request can raise: a statement on a table that does not exist. *)
Inductive error := OperationalError (message : string).

(** What a handler returns. *)
Inductive response :=
| render_template (template : string) (students : list row)
| body (text : string).

Definition reply : Type := error + response.

(** [CREATE TABLE IF NOT EXISTS students (...)], then commit. *)
Definition init_db (d : database) : database :=
  match students d with
  | Some _ => d
  | None => {| students := Some {| rows := []; sequence := 0 |} |}
  end.

(** One [INSERT INTO students (name, email, course) VALUES (?, ?, ?)]:
    the new identifier is one more than the largest identifier the table
    has or has ever had. *)
Definition insert (t : table) (v : string * string * string) : table :=
  let '(n, e, c) := v in
  let i := Z.max (sequence t) (max_rowid (map id (rows t))) + 1 in
  {| rows := rows t ++ [{| id := i; name := n; email := e; course := c |}];
     sequence := i |}.

(** [conn.executemany(statement, values)]. *)
Definition executemany (t : table) (values : list (string * string * string)) : table :=
  fold_left insert values t.

Definition sample_students : list (string * string * string) :=
  [ ("Mayuri Mahajan", "mayuri@gmail.com", "Data Science");
    ("Amit Sharma", "amit@gmail.com", "Web Development");
    ("Sneha Patil", "sneha@gmail.com", "Machine Learning") ].

Definition no_such_table : error := OperationalError "no such table: students".

(** [GET /]. *)
Definition index (d : database) : reply * database :=
  match students d with
  | None => (inl no_such_table, d)
  | Some t => (inr (render_template "index.html" (rows t)), d)
  end.

(** [GET /add]. *)
Definition add_sample_student (d : database) : reply * database :=
  match students d with
  | None => (inl no_such_table, d)
  | Some t =>
      (inr (body ("Sample students added! <a href=" ++ dquote ++ "/" ++ dquote
                  ++ ">Go back to home</a>")%string),
       {| students := Some (executemany t sample_students) |})
  end.

(** The two routes, and a run of requests in order. *)
Inductive route := route_index | route_add.

Definition handle (q : route) : database -> reply * database :=
  match q with
  | route_index => index
  | route_add => add_sample_student
  end.

Fixpoint serve (qs : list route) (d : database) : list reply * database :=
  match qs with
  | [] => ([], d)
  | q :: qs' =>
      let (r, d') := handle q d in
      let (rs, d'') := serve qs' d' in
      (r :: rs, d'')
  end.

(** The columns of a row that the [INSERT] statement names. *)
Definition fields (r : row) : string * string * string :=
  (name r, email r, course r).

Definition fields_eq_dec (v w : string * string * string) : {v = w} + {v <> w}.
Proof. repeat decide equality. Defined.

(** The table's identifiers are [1 .. k], and so is its counter. *)
Definition counted (t : table) (k : nat) : Prop :=
  map id (rows t) = map Z.of_nat (seq 1 k) /\ sequence t = Z.of_nat k.

End Part1.

(** ** Generation B: [part-3/app.py] *)

Module Part3.

(** *** The data model *)

(** What an [INTEGER] column that is not the primary key holds.  The store
    is dynamically typed: a foreign-key column declared [db.Integer] holds
    an integer, or the text it was given when that text does not read as a
    number. *)
Inductive cell := Int (z : Z) | Text (s : string).

Definition cell_eqb (a b : cell) : bool :=
  match a, b with
  | Int x, Int y => x =? y
  | Text x, Text y => (x =? y)%string
  | _, _ => false
  end.

(** [class Teacher(db.Model)]: [email] is [unique=True]. *)
Module Teacher.
Record t := { id : Z; name : string; email : string }.
End Teacher.

(** [class Course(db.Model)]: [description] is nullable, [teacher_id] is
    [db.ForeignKey('teacher.id'), nullable=False]. *)
Module Course.
Record t := { id : Z; name : string; description : option string;
              teacher_id : cell }.
End Course.

(** [class Student(db.Model)]: [email] is [unique=True], [course_id] is
    [db.ForeignKey('course.id'), nullable=False]. *)
Module Student.
Record t := { id : Z; name : string; email : string; course_id : cell }.
End Student.

Definition Teacher_eq_dec (a b : Teacher.t) : {a = b} + {a <> b}.
Proof. decide equality; [apply string_dec | apply string_dec | apply Z.eq_dec]. Defined.

(** The three tables of [school.db], each in row-identifier order.  The
    handlers run on a store whose tables exist ([init_db] runs before the
    application serves). *)
Record store := { teacher_rows : list Teacher.t;
                  course_rows : list Course.t;
                  student_rows : list Student.t }.

(** The file [school.db] as [db.create_all()] finds it: each table exists
    or not. *)
Record database := { teacher_table : option (list Teacher.t);
                     course_table : option (list Course.t);
                     student_table : option (list Student.t) }.

Definition empty_database : database :=
  {| teacher_table := None; course_table := None; student_table := None |}.

(** A store seen as the file it is kept in. *)
Definition present (s : store) : database :=
  {| teacher_table := Some (teacher_rows s);
     course_table := Some (course_rows s);
     student_table := Some (student_rows s) |}.

(** *** Requests, replies, errors *)

Inductive http_method := GET | POST.

(** [request.method] and [request.form]; the form is a multi-dictionary,
    indexing it gives the first value of the key. *)
Record request := { method : http_method; form : list (string * string) }.

Inductive constraint :=
| unique_teacher_email
| unique_student_email
| not_null_course_teacher_id.

(** The exceptions the handlers leave uncaught. *)
Inductive error :=
| NotFound                              (* [get_or_404]: 404 *)
| OverflowError                         (* raised by the driver: 500 *)
| BadRequestKeyError (key : string)     (* [request.form[key]]: 400 *)
| IntegrityError (c : constraint).      (* raised by [commit]: 500 *)

(** A value handed to a template. *)
Inductive value :=
| student_list (l : list Student.t)
| course_list (l : list Course.t)
| teacher_list (l : list Teacher.t)
| a_student (x : Student.t)
| a_teacher (x : Teacher.t).

Inductive response :=
| render_template (template : string) (context : list value)
| redirect (endpoint : string) (flash category : string).

(** *** Requests as computations on the committed store

    A computation returns a value or raises, and in both cases leaves a
    committed store: what was committed before an exception stays. *)
Definition M (A : Type) : Type := store -> (error + A) * store.

Definition ret {A} (a : A) : M A := fun s => (inr a, s).

Definition raise {A} (e : error) : M A := fun s => (inl e, s).

Definition bind {A B} (m : M A) (f : A -> M B) : M B :=
  fun s => match m s with
           | (inl e, s') => (inl e, s')
           | (inr a, s') => f a s'
           end.

Notation "x <- m ;; k" := (bind m (fun x => k))
  (at level 61, m at next level, right associativity).
Notation "m ;;; k" := (bind m (fun _ => k))
  (at level 61, right associativity).

(** [request.form[key]]. *)
Fixpoint form_get (key : string) (f : list (string * string)) : option string :=
  match f with
  | [] => None
  | (k, v) :: f' => if (k =? key)%string then Some v else form_get key f'
  end.

Definition form_field (r : request) (key : string) : M string :=
  match form_get key (form r) with
  | Some v => ret v
  | None => raise (BadRequestKeyError key)
  end.

(** *** Queries *)

(** [Model.query.get(id)]. *)
Definition Teacher_get (id : Z) (s : store) : option Teacher.t :=
  find (fun t => Teacher.id t =? id) (teacher_rows s).

Definition Student_get (id : Z) (s : store) : option Student.t :=
  find (fun x => Student.id x =? id) (student_rows s).

Definition Course_get (id : Z) (s : store) : option Course.t :=
  find (fun c => Course.id c =? id) (course_rows s).

(** The integers the driver of the store takes as the parameter of a
    statement: the signed 64-bit ones.  The route pattern [<int:id>] takes
    any run of digits, so a request can carry a larger identifier. *)
Definition fits_int64 (id : Z) : bool := (- 2 ^ 63 <=? id) && (id <? 2 ^ 63).

(** [Model.query.get_or_404(id)].  An identifier that does not fit the
    driver makes it raise [OverflowError] in place of the lookup: the request
    ends in an error of the server, not in a 404.  The store gives no row an
    identifier that does not fit, so this never stands between a request and
    a row; the tables of this model have unbounded identifiers, and the
    definition says the same of them by looking at the table first. *)
Definition Teacher_get_or_404 (id : Z) : M Teacher.t :=
  fun s => match Teacher_get id s with
           | Some t => (inr t, s)
           | None => if fits_int64 id then (inl NotFound, s)
                     else (inl OverflowError, s)
           end.

Definition Student_get_or_404 (id : Z) : M Student.t :=
  fun s => match Student_get id s with
           | Some x => (inr x, s)
           | None => if fits_int64 id then (inl NotFound, s)
                     else (inl OverflowError, s)
           end.

(** The store compares [LIKE] patterns without regard to the case of the
    ASCII letters. *)
Definition fold_case (c : ascii) : ascii :=
  let n := nat_of_ascii c in
  if ((65 <=? n) && (n <=? 90))%nat then ascii_of_nat (n + 32) else c.

(** The store reads the two operands of [LIKE] as strings that end at
    their first NUL character: what follows a NUL is not looked at. *)
Fixpoint until_nul (text : list ascii) : list ascii :=
  match text with
  | [] => []
  | c :: text' => if (c =? "000")%char then [] else c :: until_nul text'
  end.

(** [text LIKE pattern] on what is read of the operands: [%] stands for any
    run of characters, [_] for any one character. *)
Fixpoint like_from (pattern text : list ascii) {struct pattern} : bool :=
  match pattern with
  | [] => match text with [] => true | _ :: _ => false end
  | p :: pattern' =>
      if (p =? "%")%char then
        (fix any (text : list ascii) : bool :=
           like_from pattern' text
           || match text with [] => false | _ :: text' => any text' end) text
      else
        match text with
        | [] => false
        | c :: text' =>
            ((p =? "_")%char || (fold_case p =? fold_case c)%char)
            && like_from pattern' text'
        end
  end.

Definition like (text pattern : string) : bool :=
  like_from (until_nul (list_ascii_of_string pattern))
            (until_nul (list_ascii_of_string text)).

(** [ORDER BY student.name]: ascending in the byte order of the names,
    rows of equal name in table order. *)
Fixpoint insert_by_name (x : Student.t) (l : list Student.t) : list Student.t :=
  match l with
  | [] => [x]
  | y :: l' =>
      if String.leb (Student.name x) (Student.name y) then x :: l
      else y :: insert_by_name x l'
  end.

Definition order_by_name (l : list Student.t) : list Student.t :=
  fold_right insert_by_name [] l.

(** The order of that listing: the name of the first is at most the name of
    the second, byte by byte. *)
Definition name_le (x y : Student.t) : Prop :=
  String.leb (Student.name x) (Student.name y) = true.

Definition Student_query_order_by_name_all : M (list Student.t) :=
  fun s => (inr (order_by_name (student_rows s)), s).

Definition Course_query_all : M (list Course.t) :=
  fun s => (inr (course_rows s), s).

Definition Course_query_limit_all (n : nat) : M (list Course.t) :=
  fun s => (inr (firstn n (course_rows s)), s).

Definition Teacher_query_all : M (list Teacher.t) :=
  fun s => (inr (teacher_rows s), s).

Definition Teacher_query_filter_name_like_all (pattern : string) : M (list Teacher.t) :=
  fun s => (inr (filter (fun t => like (Teacher.name t) pattern) (teacher_rows s)), s).

Definition Teacher_query_count : M Z :=
  fun s => (inr (Z.of_nat (List.length (teacher_rows s))), s).

Definition Course_query_count : M Z :=
  fun s => (inr (Z.of_nat (List.length (course_rows s))), s).

(** *** Writes: one transaction each

    Every write of the handlers is staged and committed at once
    ([db.session.add(x); db.session.commit()], or assignments to a loaded
    row and then [db.session.commit()]).  A transaction is a function from
    the store to an error or the new store; [commit] applies it, and a
    transaction that fails leaves the committed store as it was. *)

Definition commit {A} (transaction : store -> error + (A * store)) : M A :=
  fun s => match transaction s with
           | inl e => (inl e, s)
           | inr (a, s') => (inr a, s')
           end.

(** The identifier the store gives a new row of a table without
    [AUTOINCREMENT]: one more than the largest in the table. *)
Definition next_id (ids : list Z) : Z := max_rowid ids + 1.

(** [INSERT INTO teacher (name, email)]. *)
Definition insert_teacher (name email : string) (s : store)
  : error + (Teacher.t * store) :=
  if existsb (fun t => (Teacher.email t =? email)%string) (teacher_rows s)
  then inl (IntegrityError unique_teacher_email)
  else
    let t := {| Teacher.id := next_id (map Teacher.id (teacher_rows s));
                Teacher.name := name; Teacher.email := email |} in
    inr (t, {| teacher_rows := teacher_rows s ++ [t];
               course_rows := course_rows s;
               student_rows := student_rows s |}).

(** [INSERT INTO course (name, description, teacher_id)].  The store does
    not check that [teacher_id] names a teacher. *)
Definition insert_course (name : string) (description : option string)
    (teacher_id : cell) (s : store) : error + (Course.t * store) :=
  let c := {| Course.id := next_id (map Course.id (course_rows s));
              Course.name := name; Course.description := description;
              Course.teacher_id := teacher_id |} in
  inr (c, {| teacher_rows := teacher_rows s;
             course_rows := course_rows s ++ [c];
             student_rows := student_rows s |}).

(** [INSERT INTO student (name, email, course_id)].  The store does not
    check that [course_id] names a course. *)
Definition insert_student (name email : string) (course_id : cell) (s : store)
  : error + (Student.t * store) :=
  if existsb (fun x => (Student.email x =? email)%string) (student_rows s)
  then inl (IntegrityError unique_student_email)
  else
    let x := {| Student.id := next_id (map Student.id (student_rows s));
                Student.name := name; Student.email := email;
                Student.course_id := course_id |} in
    inr (x, {| teacher_rows := teacher_rows s;
               course_rows := course_rows s;
               student_rows := student_rows s ++ [x] |}).

(** [UPDATE student SET name=?, email=?, course_id=? WHERE student.id = ?]:
    refused when another row holds the new email. *)
Definition update_student (id : Z) (name email : string) (course_id : cell)
    (s : store) : error + (unit * store) :=
  if existsb (fun x => negb (Student.id x =? id)
                       && (Student.email x =? email)%string) (student_rows s)
  then inl (IntegrityError unique_student_email)
  else
    inr (tt, {| teacher_rows := teacher_rows s;
                course_rows := course_rows s;
                student_rows :=
                  map (fun x => if Student.id x =? id
                                then {| Student.id := id; Student.name := name;
                                        Student.email := email;
                                        Student.course_id := course_id |}
                                else x) (student_rows s) |}).

(** [UPDATE teacher SET name=?, email=? WHERE teacher.id = ?]. *)
Definition update_teacher (id : Z) (name email : string) (s : store)
  : error + (unit * store) :=
  if existsb (fun t => negb (Teacher.id t =? id)
                       && (Teacher.email t =? email)%string) (teacher_rows s)
  then inl (IntegrityError unique_teacher_email)
  else
    inr (tt, {| teacher_rows :=
                  map (fun t => if Teacher.id t =? id
                                then {| Teacher.id := id; Teacher.name := name;
                                        Teacher.email := email |}
                                else t) (teacher_rows s);
                course_rows := course_rows s;
                student_rows := student_rows s |}).

(** [db.session.delete(student)]: [DELETE FROM student WHERE student.id = ?].
    A student owns no rows. *)
Definition delete_student_row (x : Student.t) (s : store) : error + (unit * store) :=
  inr (tt, {| teacher_rows := teacher_rows s;
              course_rows := course_rows s;
              student_rows := filter (fun y => negb (Student.id y =? Student.id x))
                                 (student_rows s) |}).

(** [db.session.delete(teacher)].  [Teacher.courses] is a relationship
    without a delete cascade, so the unit of work first detaches the
    teacher's courses by setting their [teacher_id] to NULL; the column is
    [nullable=False], so with at least one such course the flush raises and
    nothing is written.  Without courses it is
    [DELETE FROM teacher WHERE teacher.id = ?]. *)
Definition delete_teacher_row (t : Teacher.t) (s : store) : error + (unit * store) :=
  if existsb (fun c => cell_eqb (Course.teacher_id c) (Int (Teacher.id t)))
             (course_rows s)
  then inl (IntegrityError not_null_course_teacher_id)
  else
    inr (tt, {| teacher_rows := filter (fun u => negb (Teacher.id u =? Teacher.id t))
                                   (teacher_rows s);
                course_rows := course_rows s;
                student_rows := student_rows s |}).

(** [db.session.add_all(rows)] of new teachers, as one transaction. *)
Fixpoint insert_teachers (rows : list (string * string)) (s : store)
  : error + (unit * store) :=
  match rows with
  | [] => inr (tt, s)
  | (name, email) :: rows' =>
      match insert_teacher name email s with
      | inl e => inl e
      | inr (_, s') => insert_teachers rows' s'
      end
  end.

(** [db.session.add_all(rows)] of new courses, as one transaction. *)
Fixpoint insert_courses (rows : list (string * option string * cell)) (s : store)
  : error + (unit * store) :=
  match rows with
  | [] => inr (tt, s)
  | (name, description, teacher_id) :: rows' =>
      match insert_course name description teacher_id s with
      | inl e => inl e
      | inr (_, s') => insert_courses rows' s'
      end
  end.

(** *** The handlers *)

Section Handlers.

(** The conversion the store applies to a text bound to an [INTEGER]
    column: a text that reads as a number is stored as that number, any
    other text is stored as it is.  The handlers pass form fields, which
    are text, to the foreign-key columns unconverted.  The rules of the
    conversion belong to the store, so it is a parameter here;
    [decimal_affinity] below is an instance for plain decimal numerals. *)
Variable integer_affinity : string -> cell.

(** [GET /]. *)
Definition index : M response :=
  students <- Student_query_order_by_name_all ;;
  ret (render_template "index.html" [student_list students]).

(** [GET|POST /add]. *)
Definition add_student (r : request) : M response :=
  match method r with
  | POST =>
      name <- form_field r "name" ;;
      email <- form_field r "email" ;;
      course_id <- form_field r "course_id" ;;
      commit (insert_student name email (integer_affinity course_id)) ;;;
      ret (redirect "index" "Student added successfully!" "success")
  | GET =>
      courses <- Course_query_all ;;
      ret (render_template "add.html" [course_list courses])
  end.

(** [GET|POST /edit/<int:id>]. *)
Definition edit_student (id : Z) (r : request) : M response :=
  student <- Student_get_or_404 id ;;
  match method r with
  | POST =>
      name <- form_field r "name" ;;
      email <- form_field r "email" ;;
      course_id <- form_field r "course_id" ;;
      commit (update_student (Student.id student) name email
                             (integer_affinity course_id)) ;;;
      ret (redirect "index" "Student updated successfully!" "success")
  | GET =>
      courses <- Course_query_all ;;
      ret (render_template "edit.html" [a_student student; course_list courses])
  end.

(** [GET /delete/<int:id>]. *)
Definition delete_student (id : Z) : M response :=
  student <- Student_get_or_404 id ;;
  commit (delete_student_row student) ;;;
  ret (redirect "index" "Student deleted successfully!" "danger").

(** [GET /courses]. *)
Definition courses : M response :=
  all_courses <- Course_query_limit_all 10 ;;
  ret (render_template "courses.html" [course_list all_courses]).

(** [GET|POST /add-course]. *)
Definition add_course (r : request) : M response :=
  match method r with
  | POST =>
      name <- form_field r "name" ;;
      description <- form_field r "description" ;;
      teacher_id <- form_field r "teacher_id" ;;
      commit (insert_course name (Some description)
                            (integer_affinity teacher_id)) ;;;
      ret (redirect "courses" "Course added successfully!" "success")
  | GET =>
      teachers <- Teacher_query_all ;;
      ret (render_template "add_course.html" [teacher_list teachers])
  end.

(** [GET /teachers]. *)
Definition teachers : M response :=
  teacher_list <- Teacher_query_filter_name_like_all "%a%" ;;
  ret (render_template "teachers.html" [Part3.teacher_list teacher_list]).

(** [GET|POST /add-teacher]: the teacher is committed, then the course. *)
Definition add_teacher (r : request) : M response :=
  match method r with
  | POST =>
      teacher_name <- form_field r "teacher_name" ;;
      teacher_email <- form_field r "teacher_email" ;;
      teacher <- commit (insert_teacher teacher_name teacher_email) ;;
      course_name <- form_field r "course_name" ;;
      course_description <- form_field r "course_description" ;;
      commit (insert_course course_name (Some course_description)
                            (Int (Teacher.id teacher))) ;;;
      ret (redirect "teachers" "Teacher and Course added successfully!" "success")
  | GET =>
      ret (render_template "add_teacher.html" [])
  end.

(** [GET|POST /edit-teacher/<int:id>]. *)
Definition edit_teacher (id : Z) (r : request) : M response :=
  teacher <- Teacher_get_or_404 id ;;
  match method r with
  | POST =>
      name <- form_field r "name" ;;
      email <- form_field r "email" ;;
      commit (update_teacher (Teacher.id teacher) name email) ;;;
      ret (redirect "teachers" "Teacher updated successfully!" "success")
  | GET =>
      ret (render_template "edit_teacher.html" [a_teacher teacher])
  end.

(** [GET /delete-teacher/<int:id>]. *)
Definition delete_teacher (id : Z) : M response :=
  teacher <- Teacher_get_or_404 id ;;
  commit (delete_teacher_row teacher) ;;;
  ret (redirect "teachers" "Teacher deleted successfully!" "danger").

(** The routes of the application. *)
Inductive route :=
| route_index
| route_add (r : request)
| route_edit (id : Z) (r : request)
| route_delete (id : Z)
| route_courses
| route_add_course (r : request)
| route_teachers
| route_add_teacher (r : request)
| route_edit_teacher (id : Z) (r : request)
| route_delete_teacher (id : Z).

Definition handle (q : route) : M response :=
  match q with
  | route_index => index
  | route_add r => add_student r
  | route_edit id r => edit_student id r
  | route_delete id => delete_student id
  | route_courses => courses
  | route_add_course r => add_course r
  | route_teachers => teachers
  | route_add_teacher r => add_teacher r
  | route_edit_teacher id r => edit_teacher id r
  | route_delete_teacher id => delete_teacher id
  end.

End Handlers.

(** *** Storage initialization *)

(** [db.create_all()]: creates the tables that do not exist, empty, and
    leaves the others as they are. *)
Definition create_all (d : database) : store :=
  {| teacher_rows := match teacher_table d with Some l => l | None => [] end;
     course_rows := match course_table d with Some l => l | None => [] end;
     student_rows := match student_table d with Some l => l | None => [] end |}.

Definition seed_teachers : list (string * string) :=
  [ ("Dr. Sharma", "sharma@gmail.com"); ("Prof. Mehta", "mehta@gmail.com") ].

Definition seed_courses : list (string * option string * cell) :=
  [ ("Python Basics", Some "Intro to Python", Int 1);
    ("Web Development", Some "Flask & Web", Int 2);
    ("Data Science", Some "Data Analysis", Int 1) ].

(** [init_db()]. *)
Definition init_db (d : database) : (error + unit) * store :=
  ( teacher_count <- Teacher_query_count ;;
    (if teacher_count =? 0 then commit (insert_teachers seed_teachers)
     else ret tt) ;;;
    course_count <- Course_query_count ;;
    (if course_count =? 0 then commit (insert_courses seed_courses)
     else ret tt) ) (create_all d).

(** The stores the application can be in: [init_db] on a new file, then
    any requests, and [init_db] again whenever the process starts again. *)
Inductive reachable (integer_affinity : string -> cell) : store -> Prop :=
| reachable_start : reachable integer_affinity (snd (init_db empty_database))
| reachable_request (s : store) (q : route) :
    reachable integer_affinity s ->
    reachable integer_affinity (snd (handle integer_affinity q s))
| reachable_restart (s : store) :
    reachable integer_affinity s ->
    reachable integer_affinity (snd (init_db (present s))).

(** The constraints of the schema that the store checks: the primary keys
    and the two [unique=True] columns. *)
Definition constraints_hold (s : store) : Prop :=
  NoDup (map Teacher.id (teacher_rows s)) /\
  NoDup (map Teacher.email (teacher_rows s)) /\
  NoDup (map Course.id (course_rows s)) /\
  NoDup (map Student.id (student_rows s)) /\
  NoDup (map Student.email (student_rows s)).

(** A computation keeps them. *)
Definition preserves {A} (m : M A) : Prop :=
  forall s, constraints_hold s -> constraints_hold (snd (m s)).

(** An instance of the column conversion: an optional sign and decimal
    digits are stored as the integer they denote, any other text as text. *)
Definition digit_value (c : ascii) : option Z :=
  let n := nat_of_ascii c in
  if ((48 <=? n) && (n <=? 57))%nat then Some (Z.of_nat (n - 48)) else None.

Fixpoint decimal_value (acc : Z) (digits : string) : option Z :=
  match digits with
  | EmptyString => Some acc
  | String c digits' =>
      match digit_value c with
      | Some v => decimal_value (10 * acc + v) digits'
      | None => None
      end
  end.

Definition decimal_affinity (text : string) : cell :=
  match text with
  | EmptyString => Text text
  | String c rest =>
      let parsed :=
        if (c =? "-")%char then
          match rest with
          | EmptyString => None
          | _ => option_map Z.opp (decimal_value 0 rest)
          end
        else if (c =? "+")%char then
          match rest with
          | EmptyString => None
          | _ => decimal_value 0 rest
          end
        else decimal_value 0 text in
      match parsed with
      | Some z => Int z
      | None => Text text
      end
  end.

(** *** Stores and requests for the examples *)

Definition post (f : list (string * string)) : request :=
  {| method := POST; form := f |}.

(** The store after the first [init_db]. *)
Definition seeded : store := snd (init_db empty_database).

(** A new teacher whose name has no letter a, with a course. *)
Definition bob_form : list (string * string) :=
  [ ("teacher_name", "Bob"); ("teacher_email", "bob@gmail.com");
    ("course_name", "Algebra"); ("course_description", "Groups") ].

(** A new teacher, and no field for the course's name. *)
Definition asha_form : list (string * string) :=
  [ ("teacher_name", "Asha"); ("teacher_email", "asha@gmail.com") ].

(** A new student for a course that does not exist. *)
Definition ravi_form : list (string * string) :=
  [ ("name", "Ravi"); ("email", "ravi@gmail.com"); ("course_id", "99") ].

Definition mira_form : list (string * string) :=
  [ ("name", "Mira"); ("email", "mira@gmail.com"); ("course_id", "2") ].

(** New columns for the student Ravi. *)
Definition ravi_edit_form : list (string * string) :=
  [ ("name", "Ravi Kumar"); ("email", "ravi.kumar@gmail.com"); ("course_id", "3") ].

(** A teacher form with the email of the seeded teacher Dr. Sharma. *)
Definition sharma_again_form : list (string * string) :=
  [ ("teacher_name", "S. Sharma"); ("teacher_email", "sharma@gmail.com") ].

(** An edit form with the email of the seeded teacher Dr. Sharma. *)
Definition take_sharma_email_form : list (string * string) :=
  [ ("name", "Prof. Mehta"); ("email", "sharma@gmail.com") ].

Definition bob : Teacher.t :=
  {| Teacher.id := 3; Teacher.name := "Bob"; Teacher.email := "bob@gmail.com" |}.

Definition asha : Teacher.t :=
  {| Teacher.id := 3; Teacher.name := "Asha"; Teacher.email := "asha@gmail.com" |}.

Definition ravi : Student.t :=
  {| Student.id := 1; Student.name := "Ravi"; Student.email := "ravi@gmail.com";
     Student.course_id := Int 99 |}.

Definition mira : Student.t :=
  {| Student.id := 2; Student.name := "Mira"; Student.email := "mira@gmail.com";
     Student.course_id := Int 2 |}.

(** The seeded store after two students were added. *)
Definition enrolled : store :=
  snd (handle decimal_affinity (route_add (post mira_form))
         (snd (handle decimal_affinity (route_add (post ravi_form))
                 (snd (init_db empty_database))))).

(** A new teacher whose name has its only letter a behind a NUL character,
    as a form sent with [teacher_name=x%00a] holds it. *)
Definition behind_nul_form : list (string * string) :=
  [ ("teacher_name", String "x" (String "000" (String "a" EmptyString)));
    ("teacher_email", "x@gmail.com") ].

(** A request without a form. *)
Definition get_request : request := {| method := GET; form := [] |}.

(** A new course for a teacher that does not exist. *)
Definition statistics_form : list (string * string) :=
  [ ("name", "Statistics"); ("description", "Numbers"); ("teacher_id", "42") ].

(** New columns for the seeded teacher Prof. Mehta. *)
Definition mehta_edit_form : list (string * string) :=
  [ ("name", "Prof. A. Mehta"); ("email", "a.mehta@gmail.com") ].

(** A student form without the field [email]. *)
Definition nameless_email_form : list (string * string) :=
  [ ("name", "Ravi"); ("course_id", "1") ].

(** The seeded store with the teacher Asha, who has no course. *)
Definition with_asha : store := snd (add_teacher (post asha_form) seeded).

(** New name and course for the student Mira, with her present email. *)
Definition mira_edit_form : list (string * string) :=
  [ ("name", "Mira Nair"); ("email", "mira@gmail.com"); ("course_id", "3") ].

End Part3.

(** * Properties *)

(** ** Row identifiers *)

Lemma max_rowid_ge (ids : list Z) (i : Z) : In i ids -> i <= max_rowid ids.
Proof.
  induction ids as [|j ids IH]; simpl; [tauto|].
  intros [->|H]; [lia|]. specialize (IH H). lia.
Qed.

Lemma next_id_fresh (ids : list Z) : ~ In (Part3.next_id ids) ids.
Proof.
  intros H. apply max_rowid_ge in H. unfold Part3.next_id in H. lia.
Qed.

(** ** Generation A *)

Section Part1_properties.

Import Part1.

Lemma insert_fields (t : table) (v : string * string * string) :
  map fields (rows (insert t v)) = map fields (rows t) ++ [v].
Proof.
  destruct v as [[n e] c]. unfold insert. simpl.
  rewrite map_app. reflexivity.
Qed.

Lemma executemany_fields (values : list (string * string * string)) :
  forall t, map fields (rows (executemany t values)) = map fields (rows t) ++ values.
Proof.
  unfold executemany.
  induction values as [|v values IH]; intros t; simpl.
  - now rewrite app_nil_r.
  - rewrite IH, insert_fields, <- app_assoc. reflexivity.
Qed.

Lemma init_db_has_table (d : database) : exists t, students (init_db d) = Some t.
Proof.
  unfold init_db. destruct (students d) as [t|] eqn:E.
  - exists t. exact E.
  - eexists. reflexivity.
Qed.

(** [n] requests to [/add] on a store that has the table. *)
Lemma serve_add_fields (n : nat) :
  forall d t0, students d = Some t0 ->
    exists t,
      students (snd (serve (repeat route_add n) d)) = Some t /\
      map fields (rows t)
      = map fields (rows t0) ++ List.concat (repeat sample_students n) /\
      Forall (fun r => exists text, r = inr (body text))
             (fst (serve (repeat route_add n) d)).
Proof.
  induction n as [|n IH]; intros d t0 Hd.
  - exists t0. simpl. rewrite app_nil_r. auto.
  - cbn [repeat serve handle]. unfold add_sample_student at 1 2. rewrite Hd.
    destruct (IH {| students := Some (executemany t0 sample_students) |}
                 (executemany t0 sample_students) eq_refl) as (t & Ht & Hf & Hr).
    destruct (serve (repeat route_add n) _) as [rs d''] eqn:E.
    cbn [fst snd] in *. exists t. split; [exact Ht|]. split.
    + rewrite Hf, executemany_fields, <- app_assoc. cbn [repeat List.concat].
      reflexivity.
    + constructor; [eexists; reflexivity | exact Hr].
Qed.

Lemma count_occ_samples (n : nat) (v : string * string * string) :
  In v sample_students ->
  count_occ fields_eq_dec (List.concat (repeat sample_students n)) v = n.
Proof.
  intros Hv. induction n as [|n IH]; [reflexivity|].
  cbn [repeat List.concat]. rewrite count_occ_app, IH.
  cut (count_occ fields_eq_dec sample_students v = 1%nat); [lia|].
  simpl in Hv. destruct Hv as [<-|[<-|[<-|[]]]]; vm_compute; reflexivity.
Qed.

(** C10.  After [init_db], every one of [n] requests to [/add] answers
    with the confirmation text, and the rows of the table are, column for
    column, the rows it had followed by [n] copies of the three sample
    students: [3 * n] new rows, each sample [n] more times than before,
    whatever the table held. *)
Theorem add_sample_student_accumulates (d : database) (n : nat) :
  exists t0 t,
    students (init_db d) = Some t0 /\
    students (snd (serve (repeat route_add n) (init_db d))) = Some t /\
    Forall (fun r => exists text, r = inr (body text))
           (fst (serve (repeat route_add n) (init_db d))) /\
    map fields (rows t)
    = map fields (rows t0) ++ List.concat (repeat sample_students n) /\
    List.length (rows t) = (List.length (rows t0) + 3 * n)%nat /\
    forall v, In v sample_students ->
      count_occ fields_eq_dec (map fields (rows t)) v
      = (count_occ fields_eq_dec (map fields (rows t0)) v + n)%nat.
Proof.
  destruct (init_db_has_table d) as [t0 H0].
  destruct (serve_add_fields n _ _ H0) as (t & Ht & Hf & Hr).
  exists t0, t. repeat split; try assumption.
  - apply (f_equal (@List.length _)) in Hf.
    rewrite length_app, !length_map in Hf. rewrite Hf. f_equal.
    clear. induction n as [|n IH]; [reflexivity|].
    cbn [repeat List.concat]. rewrite length_app, IH. simpl. lia.
  - intros v Hv. rewrite Hf, count_occ_app, count_occ_samples by exact Hv.
    reflexivity.
Qed.

(** *** Row identifiers of Generation A *)

Lemma max_rowid_le (ids : list Z) (b : Z) :
  0 <= b -> (forall i, In i ids -> i <= b) -> max_rowid ids <= b.
Proof.
  intros Hb. induction ids as [|i ids IH]; simpl; intros H; [exact Hb|].
  assert (i <= b) by (apply H; now left).
  assert (max_rowid ids <= b) by (apply IH; intros j Hj; apply H; now right).
  lia.
Qed.

Lemma insert_counted (t : table) (k : nat) (v : string * string * string) :
  counted t k -> counted (insert t v) (S k).
Proof.
  intros [Hids Hseq]. destruct v as [[n e] c]. unfold counted, insert.
  cbn [rows sequence].
  assert (Hmax : max_rowid (map id (rows t)) <= Z.of_nat k).
  { apply max_rowid_le; [lia|]. rewrite Hids. intros i Hi.
    apply in_map_iff in Hi. destruct Hi as (j & <- & Hj).
    apply in_seq in Hj. lia. }
  assert (Hnew : Z.max (sequence t) (max_rowid (map id (rows t))) + 1
                 = Z.of_nat (S k)) by lia.
  rewrite Hnew. split; [|reflexivity].
  rewrite map_app, Hids, seq_S, map_app. reflexivity.
Qed.

Lemma executemany_counted (values : list (string * string * string)) :
  forall t k, counted t k ->
              counted (executemany t values) (k + List.length values).
Proof.
  unfold executemany.
  induction values as [|v values IH]; intros t k H; simpl.
  - now rewrite Nat.add_0_r.
  - replace (k + S (List.length values))%nat
      with (S k + List.length values)%nat by lia.
    apply IH, insert_counted, H.
Qed.

Lemma serve_add_counted (n : nat) :
  forall d t k, students d = Some t -> counted t k ->
    exists t', students (snd (serve (repeat route_add n) d)) = Some t'
               /\ counted t' (k + 3 * n).
Proof.
  induction n as [|n IH]; intros d t k Hd Hc.
  - exists t. simpl. now rewrite Nat.add_0_r.
  - cbn [repeat serve handle]. unfold add_sample_student at 1. rewrite Hd.
    destruct (IH {| students := Some (executemany t sample_students) |}
                 (executemany t sample_students) (k + 3)%nat eq_refl
                 (executemany_counted sample_students t k Hc))
      as (t' & Ht' & Hc').
    destruct (serve (repeat route_add n) _) as [rs d''] eqn:E.
    cbn [fst snd] in *. exists t'. split; [exact Ht'|].
    replace (k + 3 * S n)%nat with (k + 3 + 3 * n)%nat by lia. exact Hc'.
Qed.

(** X1.  On a new database, after [init_db] and [n] requests to [/add], the
    rows have the identifiers 1, 2, ..., 3n in table order, the counter of
    the table is 3n, and [index] lists exactly these rows. *)
Theorem identifiers_from_new_database (n : nat) :
  exists t,
    students (snd (serve (repeat route_add n) (init_db empty_database))) = Some t /\
    map id (rows t) = map Z.of_nat (seq 1 (3 * n)) /\
    sequence t = Z.of_nat (3 * n) /\
    index (snd (serve (repeat route_add n) (init_db empty_database)))
    = (inr (render_template "index.html" (rows t)),
       snd (serve (repeat route_add n) (init_db empty_database))).
Proof.
  destruct (serve_add_counted n (init_db empty_database)
              {| rows := []; sequence := 0 |} 0%nat eq_refl)
    as (t & Ht & Hids & Hseq); [split; reflexivity|].
  exists t. split; [exact Ht|]. split; [exact Hids|]. split; [exact Hseq|].
  unfold index. rewrite Ht. reflexivity.
Qed.

(** X2.  On a database without the table [students] (when [init_db] has not
    run), every request of a run raises [OperationalError] and the database
    stays as it is. *)
Theorem requests_without_table (qs : list route) (d : database) :
  students d = None ->
  serve qs d = (repeat (inl no_such_table) (List.length qs), d).
Proof.
  intros Hd. induction qs as [|q qs IH]; [reflexivity|].
  cbn [serve]. assert (Hq : handle q d = (inl no_such_table, d)).
  { destruct q; cbn [handle]; unfold index, add_sample_student;
      rewrite Hd; reflexivity. }
  rewrite Hq, IH. reflexivity.
Qed.

Lemma insert_appends (t : table) (v : string * string * string) :
  NoDup (map id (rows t)) ->
  NoDup (map id (rows (insert t v)))
  /\ exists new, rows (insert t v) = rows t ++ new.
Proof.
  intros Hnd. destruct v as [[n e] c]. unfold insert. cbn [rows]. split.
  - rewrite map_app. cbn [map id].
    apply NoDup_app; [exact Hnd | repeat constructor; simpl; tauto |].
    intros i Hi [<-|[]]. apply max_rowid_ge in Hi. lia.
  - eexists. reflexivity.
Qed.

Lemma executemany_appends (values : list (string * string * string)) :
  forall t, NoDup (map id (rows t)) ->
    NoDup (map id (rows (executemany t values)))
    /\ exists new, rows (executemany t values) = rows t ++ new.
Proof.
  unfold executemany.
  induction values as [|v values IH]; intros t Hnd; simpl.
  - split; [exact Hnd|]. exists []. now rewrite app_nil_r.
  - destruct (insert_appends t v Hnd) as [Hnd1 [new1 H1]].
    destruct (IH _ Hnd1) as [Hnd2 [new2 H2]].
    split; [exact Hnd2|]. exists (new1 ++ new2).
    rewrite H2, H1, app_assoc. reflexivity.
Qed.

(** X3.  Whatever requests are served on a database that has the table, the
    rows it had stay, unchanged and in place, in front of the new ones; and
    when the identifiers were pairwise different, they still are. *)
Theorem requests_only_append (qs : list route) (d : database) (t : table) :
  students d = Some t ->
  NoDup (map id (rows t)) ->
  exists t' new,
    students (snd (serve qs d)) = Some t' /\
    rows t' = rows t ++ new /\
    NoDup (map id (rows t')).
Proof.
  revert d t. induction qs as [|q qs IH]; intros d t Hd Hnd.
  - exists t, []. simpl. rewrite app_nil_r. auto.
  - cbn [serve]. destruct q; cbn [handle].
    + unfold index at 1. rewrite Hd.
      destruct (IH d t Hd Hnd) as (t' & new & Ht' & Hrows & Hnd').
      destruct (serve qs d) as [rs d'']. cbn [snd] in *.
      exists t', new. auto.
    + unfold add_sample_student at 1. rewrite Hd.
      destruct (executemany_appends sample_students t Hnd) as [Hnd1 [new1 H1]].
      destruct (IH {| students := Some (executemany t sample_students) |}
                   (executemany t sample_students) eq_refl Hnd1)
        as (t' & new & Ht' & Hrows & Hnd').
      destruct (serve qs _) as [rs d'']. cbn [snd] in *.
      exists t', (new1 ++ new). split; [exact Ht'|]. split; [|exact Hnd'].
      rewrite Hrows, H1, app_assoc. reflexivity.
Qed.

End Part1_properties.

(** ** Generation B *)

Section Part3_properties.

Import Part3.

Variable integer_affinity : string -> cell.

Ltac unfold_handler :=
  unfold index, add_student, edit_student, delete_student, courses, add_course,
    teachers, add_teacher, edit_teacher, delete_teacher,
    Student_get_or_404, Teacher_get_or_404, form_field, commit, bind, ret, raise.

Ltac destruct_matches :=
  repeat (match goal with
          | |- context [method ?r] => destruct (method r) eqn:?
          | |- context [form_get ?k ?f] => destruct (form_get k f) eqn:?
          | |- context [Student_get ?i ?s] => destruct (Student_get i s) eqn:?
          | |- context [Teacher_get ?i ?s] => destruct (Teacher_get i s) eqn:?
          | |- context [fits_int64 ?i] => destruct (fits_int64 i) eqn:?
          | |- context [existsb ?f ?l] => destruct (existsb f l) eqn:?
          end; cbn beta iota).

Ltac unfold_transactions :=
  unfold insert_student, insert_course, insert_teacher, update_student,
    update_teacher, delete_student_row, delete_teacher_row.

(** *** Fetch by identifier *)

Lemma find_absent {A} (f : A -> bool) (l : list A) :
  (forall x, In x l -> f x = false) -> find f l = None.
Proof.
  intros H. destruct (find f l) as [x|] eqn:E; [|reflexivity].
  apply find_some in E. destruct E as [Hin Hf].
  rewrite (H x Hin) in Hf. discriminate.
Qed.



Lemma Student_get_id (s : store) (id : Z) (x : Student.t) :
  Student_get id s = Some x -> In x (student_rows s) /\ Student.id x = id.
Proof.
  intros H. apply find_some in H. destruct H as [Hin Hid].
  split; [exact Hin | now apply Z.eqb_eq].
Qed.

Lemma Teacher_get_id (s : store) (id : Z) (t : Teacher.t) :
  Teacher_get id s = Some t -> In t (teacher_rows s) /\ Teacher.id t = id.
Proof.
  intros H. apply find_some in H. destruct H as [Hin Hid].
  split; [exact Hin | now apply Z.eqb_eq].
Qed.


(** *** Deleting *)

(** No route takes a row out of the course table: after any request the
    table is the one of before, followed by what the request added. *)
Lemma handle_appends_courses (q : route) (s : store) :
  exists new, course_rows (snd (handle integer_affinity q s)) = course_rows s ++ new.
Proof.
  destruct q; cbn [handle]; unfold_handler; unfold_transactions;
    unfold Student_query_order_by_name_all, Course_query_all,
      Course_query_limit_all, Teacher_query_all,
      Teacher_query_filter_name_like_all;
    destruct_matches; cbn [fst snd course_rows];
    first [ exists []; now rewrite app_nil_r | eexists; reflexivity ].
Qed.

(** C5.  [delete_teacher] removes no course row (and no student row),
    whether courses refer to the teacher or not.  No route deletes a
    course: whatever the request, the course table afterwards is the one of
    before followed by the courses the request added, so there is no
    deletion of a course that could reach its students. *)
Theorem delete_does_not_cascade (s : store) (id : Z) (q : route) :
  (course_rows (snd (delete_teacher id s)) = course_rows s /\
   student_rows (snd (delete_teacher id s)) = student_rows s) /\
  exists new, course_rows (snd (handle integer_affinity q s)) = course_rows s ++ new.
Proof.
  split; [|apply handle_appends_courses].
  unfold_handler. destruct (Teacher_get id s) as [t|];
    [|destruct (fits_int64 id); auto].
  unfold delete_teacher_row. destruct (existsb _ _); auto.
Qed.

Lemma In_insert_by_name (x y : Student.t) (l : list Student.t) :
  In y (insert_by_name x l) <-> y = x \/ In y l.
Proof.
  induction l as [|z l IH]; simpl.
  - intuition congruence.
  - destruct (String.leb _ _); simpl; [intuition congruence|].
    rewrite IH. intuition congruence.
Qed.

Lemma In_order_by_name (y : Student.t) (l : list Student.t) :
  In y (order_by_name l) <-> In y l.
Proof.
  induction l as [|x l IH]; simpl; [tauto|].
  rewrite In_insert_by_name, IH. intuition congruence.
Qed.

Lemma delete_student_found (s : store) (id : Z) (x : Student.t) :
  Student_get id s = Some x ->
  delete_student id s
  = (inr (redirect "index" "Student deleted successfully!" "danger"),
     {| teacher_rows := teacher_rows s;
        course_rows := course_rows s;
        student_rows := filter (fun y => negb (Student.id y =? id))
                               (student_rows s) |}).
Proof.
  intros Hget. pose proof (Student_get_id _ _ _ Hget) as [_ Hid].
  unfold_handler. rewrite Hget. unfold delete_student_row. rewrite Hid.
  reflexivity.
Qed.

(** C8.  Deleting an existing student succeeds; the listing of [index]
    that follows holds the students of before except the rows with the
    deleted identifier, and [index] leaves the store as it is, so every
    later listing is the same until another write; the course table is the
    same as before, so every course, the student's own among them, is
    fetched with the same columns. *)
Theorem delete_student_frame (s : store) (id : Z) (x : Student.t) :
  Student_get id s = Some x ->
  fst (delete_student id s)
  = inr (redirect "index" "Student deleted successfully!" "danger") /\
  (exists l,
      index (snd (delete_student id s))
      = (inr (render_template "index.html" [student_list l]),
         snd (delete_student id s)) /\
      (forall y, In y l <-> In y (student_rows s) /\ Student.id y <> id)) /\
  course_rows (snd (delete_student id s)) = course_rows s /\
  (forall cid, Course_get cid (snd (delete_student id s)) = Course_get cid s).
Proof.
  intros Hget. rewrite (delete_student_found _ _ _ Hget). cbn [fst snd].
  split; [reflexivity|]. split; [|split; reflexivity].
  eexists. split; [reflexivity|].
  intros y. cbn [student_rows]. rewrite In_order_by_name, filter_In.
  rewrite negb_true_iff, Z.eqb_neq. tauto.
Qed.

(** *** Editing *)

Lemma find_updated {A} (key : A -> Z) (id : Z) (new x : A) (l : list A) :
  key new = id ->
  find (fun y => key y =? id) l = Some x ->
  find (fun y => key y =? id)
       (map (fun y => if key y =? id then new else y) l) = Some new.
Proof.
  intros Hnew. induction l as [|y l IH]; simpl; [discriminate|].
  destruct (key y =? id) eqn:E.
  - intros _. simpl. rewrite Hnew, Z.eqb_refl. reflexivity.
  - intros H. simpl. rewrite E. auto.
Qed.

(** C7.  When a POST to [edit_student] succeeds, the form held the three
    fields, and fetching the student by the same identifier afterwards
    gives the row with that identifier, the name and the email of the
    form, and the course reference the store keeps for the form's
    [course_id]. *)
Theorem edit_student_then_get (s : store) (id : Z) (r : request) (resp : response) :
  method r = POST ->
  fst (edit_student integer_affinity id r s) = inr resp ->
  exists name email course_id,
    form_get "name" (form r) = Some name /\
    form_get "email" (form r) = Some email /\
    form_get "course_id" (form r) = Some course_id /\
    Student_get id (snd (edit_student integer_affinity id r s))
    = Some {| Student.id := id; Student.name := name; Student.email := email;
              Student.course_id := integer_affinity course_id |}.
Proof.
  intros Hm. unfold_handler. rewrite Hm.
  destruct (Student_get id s) as [x|] eqn:Hget;
    [|destruct (fits_int64 id); discriminate].
  pose proof (Student_get_id _ _ _ Hget) as [_ Hid].
  destruct (form_get "name" (form r)) as [name|]; [|discriminate].
  destruct (form_get "email" (form r)) as [email|]; [|discriminate].
  destruct (form_get "course_id" (form r)) as [course_id|]; [|discriminate].
  unfold update_student. rewrite Hid.
  destruct (existsb _ _); [discriminate|]. cbn [fst snd]. intros _.
  exists name, email, course_id. repeat split.
  unfold Student_get. cbn [student_rows].
  apply (find_updated Student.id id _ x); [reflexivity | exact Hget].
Qed.

(** With a course that refers to the teacher, [delete_teacher] is refused
    when the session flushes, and nothing is written. *)
Lemma delete_teacher_with_course (s : store) (id : Z) (t : Teacher.t) (c : Course.t) :
  Teacher_get id s = Some t ->
  In c (course_rows s) -> Course.teacher_id c = Int id ->
  delete_teacher id s = (inl (IntegrityError not_null_course_teacher_id), s).
Proof.
  intros Hget Hin Hc. pose proof (Teacher_get_id _ _ _ Hget) as [_ Hid].
  unfold_handler. rewrite Hget. unfold delete_teacher_row.
  assert (E : existsb (fun d => cell_eqb (Course.teacher_id d) (Int (Teacher.id t)))
                      (course_rows s) = true).
  { apply existsb_exists. exists c. split; [exact Hin|].
    rewrite Hc, Hid. simpl. apply Z.eqb_refl. }
  rewrite E. reflexivity.
Qed.

(** *** Creating *)

Lemma existsb_none {A} (f : A -> bool) (l : list A) :
  (forall x, In x l -> f x = false) -> existsb f l = false.
Proof.
  intros H. destruct (existsb f l) eqn:E; [|reflexivity].
  apply existsb_exists in E. destruct E as (x & Hin & Hf).
  rewrite (H x Hin) in Hf. discriminate.
Qed.

Lemma insert_teacher_fresh (s : store) (name email : string) :
  (forall t, In t (teacher_rows s) -> Teacher.email t <> email) ->
  insert_teacher name email s
  = inr ({| Teacher.id := next_id (map Teacher.id (teacher_rows s));
            Teacher.name := name; Teacher.email := email |},
         {| teacher_rows :=
              teacher_rows s
              ++ [{| Teacher.id := next_id (map Teacher.id (teacher_rows s));
                     Teacher.name := name; Teacher.email := email |}];
            course_rows := course_rows s;
            student_rows := student_rows s |}).
Proof.
  intros H. unfold insert_teacher. rewrite existsb_none; [reflexivity|].
  intros t Ht. apply String.eqb_neq. auto.
Qed.

(** The teacher table after a POST to [add_teacher] with a new email,
    whatever becomes of the course. *)
Lemma add_teacher_teacher_rows (s : store) (r : request) (name email : string) :
  method r = POST ->
  form_get "teacher_name" (form r) = Some name ->
  form_get "teacher_email" (form r) = Some email ->
  (forall t, In t (teacher_rows s) -> Teacher.email t <> email) ->
  teacher_rows (snd (add_teacher r s))
  = teacher_rows s
    ++ [{| Teacher.id := next_id (map Teacher.id (teacher_rows s));
           Teacher.name := name; Teacher.email := email |}].
Proof.
  intros Hm Hn He Hfresh. unfold_handler. rewrite Hm, Hn, He.
  rewrite (insert_teacher_fresh _ _ _ Hfresh).
  destruct (form_get "course_name" (form r)); [|reflexivity].
  destruct (form_get "course_description" (form r)); reflexivity.
Qed.

(** A POST to [add_teacher] that lacks the field [course_name]. *)
Lemma add_teacher_without_course_name (s : store) (r : request) (name email : string) :
  method r = POST ->
  form_get "teacher_name" (form r) = Some name ->
  form_get "teacher_email" (form r) = Some email ->
  form_get "course_name" (form r) = None ->
  (forall t, In t (teacher_rows s) -> Teacher.email t <> email) ->
  add_teacher r s
  = (inl (BadRequestKeyError "course_name"),
     {| teacher_rows :=
          teacher_rows s
          ++ [{| Teacher.id := next_id (map Teacher.id (teacher_rows s));
                 Teacher.name := name; Teacher.email := email |}];
        course_rows := course_rows s;
        student_rows := student_rows s |}).
Proof.
  intros Hm Hn He Hc Hfresh. unfold_handler. rewrite Hm, Hn, He, Hc.
  rewrite (insert_teacher_fresh _ _ _ Hfresh). reflexivity.
Qed.

(** A POST to [add_student] with the three fields and a new email succeeds
    whatever the course table holds: the handler does not read it. *)
Lemma add_student_ignores_courses (s : store) (r : request)
    (name email course_id : string) :
  method r = POST ->
  form_get "name" (form r) = Some name ->
  form_get "email" (form r) = Some email ->
  form_get "course_id" (form r) = Some course_id ->
  (forall x, In x (student_rows s) -> Student.email x <> email) ->
  add_student integer_affinity r s
  = (inr (redirect "index" "Student added successfully!" "success"),
     {| teacher_rows := teacher_rows s;
        course_rows := course_rows s;
        student_rows :=
          student_rows s
          ++ [{| Student.id := next_id (map Student.id (student_rows s));
                 Student.name := name; Student.email := email;
                 Student.course_id := integer_affinity course_id |}] |}).
Proof.
  intros Hm Hn He Hc Hfresh. unfold_handler. rewrite Hm, Hn, He, Hc.
  unfold insert_student. rewrite existsb_none; [reflexivity|].
  intros x Hx. apply String.eqb_neq. auto.
Qed.

(** *** The pattern of the teacher listing *)

Lemma like_from_percent (text : list ascii) : like_from ["%"%char] text = true.
Proof. induction text as [|c text IH]; [reflexivity|]. simpl in *. exact IH. Qed.

Lemma like_from_percent_a_percent (text : list ascii) :
  like_from ["%"; "a"; "%"]%char text
  = existsb (fun c => (fold_case c =? "a")%char) text.
Proof.
  induction text as [|c text IH]; [reflexivity|].
  change (like_from ["%"; "a"; "%"]%char (c :: text))
    with (((fold_case "a" =? fold_case c)%char && like_from ["%"%char] text)
          || like_from ["%"; "a"; "%"]%char text).
  rewrite IH, like_from_percent, andb_true_r.
  change (fold_case "a") with "a"%char. simpl existsb.
  rewrite Ascii.eqb_sym. reflexivity.
Qed.

Lemma fold_case_a (c : ascii) :
  fold_case c = "a"%char <-> c = "a"%char \/ c = "A"%char.
Proof.
  destruct c as [[] [] [] [] [] [] [] []]; vm_compute;
    (split; [intros H; try discriminate H; auto
            | intros [H|H]; try discriminate H; reflexivity]).
Qed.

(** The listing's filter [name LIKE '%a%'] holds of the names with the
    letter a, small or capital, in front of any NUL character. *)
Lemma like_percent_a_percent (name : string) :
  like name "%a%" = true
  <-> exists c, In c (until_nul (list_ascii_of_string name))
                /\ (c = "a"%char \/ c = "A"%char).
Proof.
  unfold like.
  change (until_nul (list_ascii_of_string "%a%")) with ["%"; "a"; "%"]%char.
  rewrite like_from_percent_a_percent, existsb_exists.
  split; intros (c & Hin & H); exists c; (split; [exact Hin|]).
  - apply fold_case_a. now apply Ascii.eqb_eq.
  - apply Ascii.eqb_eq. now apply fold_case_a.
Qed.

Lemma count_occ_filter {A} (dec : forall a b : A, {a = b} + {a <> b})
    (f : A -> bool) (l : list A) (x : A) :
  count_occ dec (filter f l) x = if f x then count_occ dec l x else 0%nat.
Proof.
  induction l as [|y l IH]; simpl; [now destruct (f x)|].
  destruct (f y) eqn:Ey; simpl; destruct (dec y x) as [->|Hne];
    rewrite ?IH; try rewrite Ey; try reflexivity;
    destruct (f x); reflexivity.
Qed.

(** C1, as the code has it.  After a POST to [add_teacher] with a name and
    an email that no teacher has, the teacher table holds one new row with
    that name and email, and the listing of [teachers] that follows holds
    this row once when the name has the letter a (small or capital) in
    front of any NUL character, and not at all when it has not. *)
Theorem add_teacher_then_listing (s : store) (r : request) (name email : string) :
  method r = POST ->
  form_get "teacher_name" (form r) = Some name ->
  form_get "teacher_email" (form r) = Some email ->
  (forall t, In t (teacher_rows s) -> Teacher.email t <> email) ->
  exists t l,
    Teacher.name t = name /\ Teacher.email t = email /\
    ~ In t (teacher_rows s) /\
    teacher_rows (snd (add_teacher r s)) = teacher_rows s ++ [t] /\
    teachers (snd (add_teacher r s))
    = (inr (render_template "teachers.html" [teacher_list l]),
       snd (add_teacher r s)) /\
    count_occ Teacher_eq_dec l t = (if like name "%a%" then 1 else 0)%nat /\
    (like name "%a%" = true
     <-> exists c, In c (until_nul (list_ascii_of_string name))
                   /\ (c = "a"%char \/ c = "A"%char)).
Proof.
  intros Hm Hn He Hfresh.
  pose proof (add_teacher_teacher_rows s r name email Hm Hn He Hfresh) as Hrows.
  set (t := {| Teacher.id := next_id (map Teacher.id (teacher_rows s));
               Teacher.name := name; Teacher.email := email |}) in *.
  assert (Hnot : ~ In t (teacher_rows s)).
  { intros Hin. exact (Hfresh t Hin eq_refl). }
  exists t, (filter (fun u => like (Teacher.name u) "%a%")
                    (teacher_rows (snd (add_teacher r s)))).
  split; [reflexivity|]. split; [reflexivity|]. split; [exact Hnot|].
  split; [exact Hrows|]. split; [reflexivity|].
  split; [|apply like_percent_a_percent].
  rewrite count_occ_filter, Hrows.
  change (Teacher.name t) with name. destruct (like name "%a%"); [|reflexivity].
  rewrite count_occ_app. apply (count_occ_not_In Teacher_eq_dec) in Hnot.
  rewrite Hnot, (count_occ_cons_eq Teacher_eq_dec _ (eq_refl t)). reflexivity.
Qed.

(** *** The constraints are kept *)

Lemma NoDup_map_snoc {A B} (f : A -> B) (l : list A) (x : A) :
  NoDup (map f l) -> ~ In (f x) (map f l) -> NoDup (map f (l ++ [x])).
Proof.
  intros Hl Hx. rewrite map_app. simpl.
  apply NoDup_app; [exact Hl | repeat constructor; simpl; tauto |].
  intros b Hb [<-|[]]. contradiction.
Qed.

Lemma NoDup_map_filter {Row Key} (key : Row -> Key) (keep : Row -> bool)
    (rows : list Row) (Hrows : NoDup (map key rows)) :
  NoDup (map key (filter keep rows)).
Proof.
  induction rows as [|row rows IH]; simpl; [exact Hrows|].
  simpl in Hrows. inversion Hrows as [|? ? Hrow Hrest]; subst.
  destruct (keep row); simpl; [|auto].
  constructor; [|auto]. intros Hin. apply Hrow.
  apply in_map_iff in Hin. destruct Hin as (y & Hy & Hin).
  apply filter_In in Hin. apply in_map_iff. exists y. tauto.
Qed.

Lemma map_key_update {A} (key : A -> Z) (id : Z) (new : A) (l : list A) :
  key new = id ->
  map key (map (fun x => if key x =? id then new else x) l) = map key l.
Proof.
  intros Hnew. induction l as [|x l IH]; simpl; [reflexivity|].
  rewrite IH. destruct (key x =? id) eqn:E; [|reflexivity].
  apply Z.eqb_eq in E. congruence.
Qed.

Lemma NoDup_map_update {A} (key : A -> Z) (em : A -> string) (id : Z)
    (new : A) (l : list A) :
  NoDup (map key l) -> NoDup (map em l) ->
  (forall y, In y l -> key y <> id -> em y <> em new) ->
  NoDup (map em (map (fun x => if key x =? id then new else x) l)).
Proof.
  induction l as [|x l IH]; simpl; [constructor|].
  intros Hk He Hother.
  inversion Hk as [|? ? Hkx Hkl]; inversion He as [|? ? Hex Hel]; subst.
  constructor.
  - intros Hin. apply in_map_iff in Hin. destruct Hin as (z & Hz & Hin).
    apply in_map_iff in Hin. destruct Hin as (y & Hy & Hin). subst z.
    destruct (key x =? id) eqn:Ex; destruct (key y =? id) eqn:Ey.
    + apply Z.eqb_eq in Ex, Ey. apply Hkx, in_map_iff. exists y.
      split; [congruence | exact Hin].
    + apply Z.eqb_neq in Ey. exact (Hother y (or_intror Hin) Ey Hz).
    + apply Z.eqb_neq in Ex. apply (Hother x (or_introl eq_refl) Ex).
      symmetry. exact Hz.
    + apply Hex, in_map_iff. exists y. tauto.
  - apply IH; auto.
Qed.

Lemma preserves_ret {A} (a : A) : preserves (ret a).
Proof. intros s H. exact H. Qed.

Lemma preserves_raise {A} (e : error) : preserves (@raise A e).
Proof. intros s H. exact H. Qed.

Lemma preserves_read {A} (m : M A) : (forall s, snd (m s) = s) -> preserves m.
Proof. intros Hm s H. rewrite Hm. exact H. Qed.

Lemma preserves_bind {A B} (m : M A) (f : A -> M B) :
  preserves m -> (forall a, preserves (f a)) -> preserves (bind m f).
Proof.
  intros Hm Hf s H. unfold bind. specialize (Hm s H).
  destruct (m s) as [[e|a] s']; [exact Hm|]. apply Hf. exact Hm.
Qed.

Lemma preserves_commit {A} (transaction : store -> error + (A * store)) :
  (forall s a s', constraints_hold s -> transaction s = inr (a, s') ->
                  constraints_hold s') ->
  preserves (commit transaction).
Proof.
  intros Ht s H. unfold commit. specialize (Ht s).
  destruct (transaction s) as [e|[a s']]; [exact H|]. eapply Ht; eauto.
Qed.

Lemma preserves_form_field (r : request) (key : string) :
  preserves (form_field r key).
Proof.
  unfold form_field. destruct (form_get key (form r));
    [apply preserves_ret | apply preserves_raise].
Qed.

Lemma preserves_Student_get_or_404 (id : Z) : preserves (Student_get_or_404 id).
Proof.
  apply preserves_read. intros s. unfold Student_get_or_404.
  destruct (Student_get id s); [|destruct (fits_int64 id)]; reflexivity.
Qed.

Lemma preserves_Teacher_get_or_404 (id : Z) : preserves (Teacher_get_or_404 id).
Proof.
  apply preserves_read. intros s. unfold Teacher_get_or_404.
  destruct (Teacher_get id s); [|destruct (fits_int64 id)]; reflexivity.
Qed.

Lemma existsb_false_all {A} (f : A -> bool) (l : list A) :
  existsb f l = false -> forall x, In x l -> f x = false.
Proof.
  intros H x Hin. destruct (f x) eqn:E; [|reflexivity].
  rewrite <- H. symmetry. apply existsb_exists. eauto.
Qed.

Lemma email_not_in {A} (em : A -> string) (email : string) (l : list A) :
  existsb (fun x => (em x =? email)%string) l = false ->
  ~ In email (map em l).
Proof.
  intros H Hin. apply in_map_iff in Hin. destruct Hin as (x & Hx & Hin).
  apply (existsb_false_all _ _ H) in Hin. apply String.eqb_neq in Hin. auto.
Qed.

Lemma next_id_not_in {A} (key : A -> Z) (l : list A) :
  ~ In (next_id (map key l)) (map key l).
Proof. apply next_id_fresh. Qed.

Lemma insert_teacher_keeps (name email : string) (s : store) (t : Teacher.t)
    (s' : store) :
  constraints_hold s -> insert_teacher name email s = inr (t, s') ->
  constraints_hold s'.
Proof.
  intros (Hti & Hte & Hci & Hsi & Hse). unfold insert_teacher.
  destruct (existsb _ _) eqn:E; [discriminate|].
  intros H. inversion H; subst; clear H.
  repeat split; cbn [teacher_rows course_rows student_rows]; try assumption.
  - apply NoDup_map_snoc; [exact Hti | apply next_id_not_in].
  - apply NoDup_map_snoc; [exact Hte | exact (email_not_in _ _ _ E)].
Qed.

Lemma insert_course_keeps (name : string) (description : option string)
    (teacher_id : cell) (s : store) (c : Course.t) (s' : store) :
  constraints_hold s -> insert_course name description teacher_id s = inr (c, s') ->
  constraints_hold s'.
Proof.
  intros (Hti & Hte & Hci & Hsi & Hse). unfold insert_course.
  intros H. inversion H; subst; clear H.
  repeat split; cbn [teacher_rows course_rows student_rows]; try assumption.
  apply NoDup_map_snoc; [exact Hci | apply next_id_not_in].
Qed.

Lemma insert_student_keeps (name email : string) (course_id : cell) (s : store)
    (x : Student.t) (s' : store) :
  constraints_hold s -> insert_student name email course_id s = inr (x, s') ->
  constraints_hold s'.
Proof.
  intros (Hti & Hte & Hci & Hsi & Hse). unfold insert_student.
  destruct (existsb _ _) eqn:E; [discriminate|].
  intros H. inversion H; subst; clear H.
  repeat split; cbn [teacher_rows course_rows student_rows]; try assumption.
  - apply NoDup_map_snoc; [exact Hsi | apply next_id_not_in].
  - apply NoDup_map_snoc; [exact Hse | exact (email_not_in _ _ _ E)].
Qed.

Lemma other_rows_differ {A} (key : A -> Z) (em : A -> string) (id : Z)
    (email : string) (l : list A) :
  existsb (fun x => negb (key x =? id) && (em x =? email)%string) l = false ->
  forall y, In y l -> key y <> id -> em y <> email.
Proof.
  intros H y Hin Hk He. apply (existsb_false_all _ _ H) in Hin.
  apply Z.eqb_neq in Hk. apply String.eqb_eq in He. rewrite Hk, He in Hin.
  discriminate.
Qed.

Lemma update_student_keeps (id : Z) (name email : string) (course_id : cell)
    (s : store) (u : unit) (s' : store) :
  constraints_hold s -> update_student id name email course_id s = inr (u, s') ->
  constraints_hold s'.
Proof.
  intros (Hti & Hte & Hci & Hsi & Hse). unfold update_student.
  destruct (existsb _ _) eqn:E; [discriminate|].
  intros H. inversion H; subst; clear H.
  repeat split; cbn [teacher_rows course_rows student_rows]; try assumption.
  - rewrite (map_key_update Student.id); [exact Hsi | reflexivity].
  - apply (NoDup_map_update Student.id Student.email); try assumption.
    exact (other_rows_differ _ _ _ _ _ E).
Qed.

Lemma update_teacher_keeps (id : Z) (name email : string) (s : store)
    (u : unit) (s' : store) :
  constraints_hold s -> update_teacher id name email s = inr (u, s') ->
  constraints_hold s'.
Proof.
  intros (Hti & Hte & Hci & Hsi & Hse). unfold update_teacher.
  destruct (existsb _ _) eqn:E; [discriminate|].
  intros H. inversion H; subst; clear H.
  repeat split; cbn [teacher_rows course_rows student_rows]; try assumption.
  - rewrite (map_key_update Teacher.id); [exact Hti | reflexivity].
  - apply (NoDup_map_update Teacher.id Teacher.email); try assumption.
    exact (other_rows_differ _ _ _ _ _ E).
Qed.

Lemma delete_student_row_keeps (x : Student.t) (s : store) (u : unit) (s' : store) :
  constraints_hold s -> delete_student_row x s = inr (u, s') ->
  constraints_hold s'.
Proof.
  intros (Hti & Hte & Hci & Hsi & Hse). unfold delete_student_row.
  intros H. inversion H; subst; clear H.
  repeat split; cbn [teacher_rows course_rows student_rows]; try assumption;
    now apply NoDup_map_filter.
Qed.

Lemma delete_teacher_row_keeps (t : Teacher.t) (s : store) (u : unit) (s' : store) :
  constraints_hold s -> delete_teacher_row t s = inr (u, s') ->
  constraints_hold s'.
Proof.
  intros (Hti & Hte & Hci & Hsi & Hse). unfold delete_teacher_row.
  destruct (existsb _ _); [discriminate|].
  intros H. inversion H; subst; clear H.
  repeat split; cbn [teacher_rows course_rows student_rows]; try assumption;
    now apply NoDup_map_filter.
Qed.

Lemma insert_teachers_keeps (rows : list (string * string)) :
  forall s u s', constraints_hold s -> insert_teachers rows s = inr (u, s') ->
                 constraints_hold s'.
Proof.
  induction rows as [|[name email] rows IH]; intros s u s' Hs; simpl.
  - intros H. inversion H; subst; clear H. exact Hs.
  - destruct (insert_teacher name email s) as [e|[t s1]] eqn:E; [discriminate|].
    apply IH. exact (insert_teacher_keeps _ _ _ _ _ Hs E).
Qed.

Lemma insert_courses_keeps (rows : list (string * option string * cell)) :
  forall s u s', constraints_hold s -> insert_courses rows s = inr (u, s') ->
                 constraints_hold s'.
Proof.
  induction rows as [|[[name description] teacher_id] rows IH];
    intros s u s' Hs; simpl.
  - intros H. inversion H; subst; clear H. exact Hs.
  - apply IH. eapply insert_course_keeps; [exact Hs | reflexivity].
Qed.

Create HintDb preserves.

Hint Resolve preserves_ret preserves_raise preserves_form_field
  preserves_Student_get_or_404 preserves_Teacher_get_or_404 : preserves.
Hint Resolve insert_teacher_keeps insert_course_keeps insert_student_keeps
  update_student_keeps update_teacher_keeps delete_student_row_keeps
  delete_teacher_row_keeps insert_teachers_keeps insert_courses_keeps : preserves.

Ltac preserves_steps :=
  repeat first
    [ apply preserves_bind; [|intros ?]
    | apply preserves_commit; intros ? ? ?
    | apply preserves_read; reflexivity ];
  eauto with preserves.

Lemma handle_preserves (q : route) : preserves (handle integer_affinity q).
Proof.
  destruct q; cbn [handle];
    unfold index, add_student, edit_student, delete_student, courses,
      add_course, teachers, add_teacher, edit_teacher, delete_teacher;
    try destruct (method r); preserves_steps.
Qed.

Lemma create_all_present (s : store) : create_all (present s) = s.
Proof. destruct s; reflexivity. Qed.

Lemma init_db_keeps (d : database) :
  constraints_hold (create_all d) -> constraints_hold (snd (init_db d)).
Proof.
  unfold init_db. generalize (create_all d).
  change (preserves
            (teacher_count <- Teacher_query_count ;;
             (if teacher_count =? 0 then commit (insert_teachers seed_teachers)
              else ret tt) ;;;
             course_count <- Course_query_count ;;
             (if course_count =? 0 then commit (insert_courses seed_courses)
              else ret tt))).
  apply preserves_bind; [apply preserves_read; reflexivity|]. intros n.
  apply preserves_bind; [destruct (n =? 0); preserves_steps|]. intros _.
  apply preserves_bind; [apply preserves_read; reflexivity|]. intros m.
  destruct (m =? 0); preserves_steps.
Qed.

Lemma reachable_constraints_hold (s : store) :
  reachable integer_affinity s -> constraints_hold s.
Proof.
  induction 1 as [|s q _ IH|s _ IH].
  - apply init_db_keeps. repeat split; constructor.
  - apply handle_preserves. exact IH.
  - apply init_db_keeps. rewrite create_all_present. exact IH.
Qed.

Lemma existsb_some {A} (f : A -> bool) (l : list A) (x : A) :
  In x l -> f x = true -> existsb f l = true.
Proof. intros Hin Hf. apply existsb_exists. eauto. Qed.

(** C6.  In every store the application can reach, no two teachers have
    the same email and no two students have the same email.  A POST to
    [add_student] or [add_teacher] with an email that a row of the table
    has, and a POST to [edit_student] or [edit_teacher] with an email that
    another row of the table has, raises [IntegrityError] on the table's
    uniqueness constraint and leaves the store as it was. *)
Theorem email_uniqueness (s : store) :
  reachable integer_affinity s ->
  (NoDup (map Teacher.email (teacher_rows s)) /\
   NoDup (map Student.email (student_rows s))) /\
  (forall r name email course_id x,
      method r = POST ->
      form_get "name" (form r) = Some name ->
      form_get "email" (form r) = Some email ->
      form_get "course_id" (form r) = Some course_id ->
      In x (student_rows s) -> Student.email x = email ->
      add_student integer_affinity r s
      = (inl (IntegrityError unique_student_email), s)) /\
  (forall id r name email course_id x y,
      method r = POST ->
      form_get "name" (form r) = Some name ->
      form_get "email" (form r) = Some email ->
      form_get "course_id" (form r) = Some course_id ->
      Student_get id s = Some x ->
      In y (student_rows s) -> Student.id y <> id -> Student.email y = email ->
      edit_student integer_affinity id r s
      = (inl (IntegrityError unique_student_email), s)) /\
  (forall r name email t,
      method r = POST ->
      form_get "teacher_name" (form r) = Some name ->
      form_get "teacher_email" (form r) = Some email ->
      In t (teacher_rows s) -> Teacher.email t = email ->
      add_teacher r s = (inl (IntegrityError unique_teacher_email), s)) /\
  (forall id r name email t u,
      method r = POST ->
      form_get "name" (form r) = Some name ->
      form_get "email" (form r) = Some email ->
      Teacher_get id s = Some t ->
      In u (teacher_rows s) -> Teacher.id u <> id -> Teacher.email u = email ->
      edit_teacher id r s = (inl (IntegrityError unique_teacher_email), s)).
Proof.
  intros Hreach. split; [|repeat split].
  - destruct (reachable_constraints_hold s Hreach) as (_ & Hte & _ & _ & Hse).
    auto.
  - intros r name email course_id x Hm Hn He Hc Hin Hx.
    unfold_handler. rewrite Hm, Hn, He, Hc. unfold insert_student.
    rewrite (existsb_some _ _ x Hin); [reflexivity|].
    now apply String.eqb_eq.
  - intros id r name email course_id x y Hm Hn He Hc Hget Hin Hid Hy.
    pose proof (Student_get_id _ _ _ Hget) as [_ Hxid].
    unfold_handler. rewrite Hget, Hm, Hn, He, Hc. unfold update_student.
    rewrite (existsb_some _ _ y Hin); [reflexivity|]. rewrite Hxid.
    apply andb_true_iff. split; [|now apply String.eqb_eq].
    apply negb_true_iff. now apply Z.eqb_neq.
  - intros r name email t Hm Hn He Hin Ht.
    unfold_handler. rewrite Hm, Hn, He. unfold insert_teacher.
    rewrite (existsb_some _ _ t Hin); [reflexivity|].
    now apply String.eqb_eq.
  - intros id r name email t u Hm Hn He Hget Hin Hid Hu.
    pose proof (Teacher_get_id _ _ _ Hget) as [_ Htid].
    unfold_handler. rewrite Hget, Hm, Hn, He. unfold update_teacher.
    rewrite (existsb_some _ _ u Hin); [reflexivity|]. rewrite Htid.
    apply andb_true_iff. split; [|now apply String.eqb_eq].
    apply negb_true_iff. now apply Z.eqb_neq.
Qed.

(** *** Listings *)

Lemma insert_by_name_perm (x : Student.t) (l : list Student.t) :
  Permutation (x :: l) (insert_by_name x l).
Proof.
  induction l as [|y l IH]; simpl; [reflexivity|].
  destruct (String.leb _ _); [reflexivity|].
  rewrite perm_swap. now apply perm_skip.
Qed.

Lemma order_by_name_perm (l : list Student.t) : Permutation l (order_by_name l).
Proof.
  induction l as [|x l IH]; simpl; [constructor|].
  rewrite <- insert_by_name_perm. now apply perm_skip.
Qed.

Lemma insert_by_name_sorted (x : Student.t) (l : list Student.t) :
  Sorted name_le l -> Sorted name_le (insert_by_name x l).
Proof.
  induction l as [|y l IH]; intros Hs; simpl.
  - repeat constructor.
  - destruct (String.leb (Student.name x) (Student.name y)) eqn:E.
    + constructor; [exact Hs|]. constructor. exact E.
    + inversion Hs as [|? ? Hl Hhd]; subst. constructor; [now apply IH|].
      assert (Hyx : String.leb (Student.name y) (Student.name x) = true).
      { destruct (String.leb_total (Student.name x) (Student.name y)) as [H|H];
          [congruence | exact H]. }
      destruct l as [|z l]; simpl.
      * constructor. exact Hyx.
      * destruct (String.leb (Student.name x) (Student.name z));
          constructor; [exact Hyx|].
        inversion Hhd; subst. assumption.
Qed.

Lemma order_by_name_sorted (l : list Student.t) : Sorted name_le (order_by_name l).
Proof.
  induction l as [|x l IH]; simpl; [constructor|].
  now apply insert_by_name_sorted.
Qed.

(** X4.  [index] lists every student of the table once (the listing is a
    permutation of the table), each name at most the next one in byte
    order, and writes nothing. *)
Theorem index_lists_students_by_name (s : store) :
  exists l,
    index s = (inr (render_template "index.html" [student_list l]), s) /\
    Permutation (student_rows s) l /\
    Sorted name_le l.
Proof.
  exists (order_by_name (student_rows s)).
  split; [reflexivity|]. split; [apply order_by_name_perm|].
  apply order_by_name_sorted.
Qed.

(** [courses] lists the first courses of the table, ten at most: the
    table is the listing followed by the courses left out, and the listing
    has ten courses, or all of them when the table has fewer. *)
Lemma courses_lists_ten_at_most (s : store) :
  exists l rest,
    courses s = (inr (render_template "courses.html" [course_list l]), s) /\
    course_rows s = l ++ rest /\
    List.length l = Nat.min 10 (List.length (course_rows s)).
Proof.
  exists (firstn 10 (course_rows s)), (skipn 10 (course_rows s)).
  split; [reflexivity|]. split; [now rewrite firstn_skipn|].
  apply length_firstn.
Qed.

(** X5.  [teachers] lists exactly the teachers of the table whose name has
    the letter a, small or capital, in front of any NUL character (the
    store reads a name up to its first NUL when it matches the pattern), and
    writes nothing. *)
Theorem teachers_lists_names_with_a (s : store) :
  exists l,
    teachers s = (inr (render_template "teachers.html" [teacher_list l]), s) /\
    forall t,
      In t l <->
      In t (teacher_rows s)
      /\ exists c, In c (until_nul (list_ascii_of_string (Teacher.name t)))
                   /\ (c = "a"%char \/ c = "A"%char).
Proof.
  eexists. split; [reflexivity|]. intros t.
  rewrite filter_In, like_percent_a_percent. reflexivity.
Qed.

(** *** Fetching after a write *)

Lemma find_snoc {A} (f : A -> bool) (l : list A) (x : A) :
  find f (l ++ [x])
  = match find f l with
    | Some y => Some y
    | None => if f x then Some x else None
    end.
Proof.
  induction l as [|y l IH]; simpl; [reflexivity|].
  destruct (f y); [reflexivity | exact IH].
Qed.

Lemma find_key_absent {A} (key : A -> Z) (l : list A) (id : Z) :
  ~ In id (map key l) -> find (fun y => key y =? id) l = None.
Proof.
  intros H. apply find_absent. intros y Hy. apply Z.eqb_neq. intros <-.
  apply H, in_map, Hy.
Qed.

Lemma find_key_deleted {A} (key : A -> Z) (id : Z) (l : list A) :
  find (fun y => key y =? id) (filter (fun y => negb (key y =? id)) l) = None.
Proof.
  apply find_absent. intros y Hy. apply filter_In in Hy.
  destruct Hy as [_ Hy]. now apply negb_true_iff in Hy.
Qed.

Lemma find_key_other_deleted {A} (key : A -> Z) (id id' : Z) (l : list A) :
  id' <> id ->
  find (fun y => key y =? id') (filter (fun y => negb (key y =? id)) l)
  = find (fun y => key y =? id') l.
Proof.
  intros Hne. induction l as [|y l IH]; simpl; [reflexivity|].
  destruct (key y =? id) eqn:E; simpl.
  - apply Z.eqb_eq in E. rewrite IH.
    destruct (key y =? id') eqn:E'; [|reflexivity].
    apply Z.eqb_eq in E'. congruence.
  - rewrite IH. reflexivity.
Qed.

Lemma find_key_other_updated {A} (key : A -> Z) (id id' : Z) (new : A)
    (l : list A) :
  key new = id -> id' <> id ->
  find (fun y => key y =? id') (map (fun y => if key y =? id then new else y) l)
  = find (fun y => key y =? id') l.
Proof.
  intros Hnew Hne. induction l as [|y l IH]; simpl; [reflexivity|].
  rewrite IH. destruct (key y =? id) eqn:E; [|reflexivity].
  apply Z.eqb_eq in E.
  assert (H1 : (key new =? id') = false) by (apply Z.eqb_neq; congruence).
  assert (H2 : (key y =? id') = false) by (apply Z.eqb_neq; congruence).
  rewrite H1, H2. reflexivity.
Qed.

Lemma find_key_unique {A} (key : A -> Z) (l : list A) (x : A) :
  NoDup (map key l) -> In x l -> find (fun y => key y =? key x) l = Some x.
Proof.
  induction l as [|y l IH]; simpl; [tauto|].
  intros Hnd Hin. inversion Hnd as [|? ? Hy Hl]; subst.
  destruct Hin as [->|Hin]; [now rewrite Z.eqb_refl|].
  destruct (key y =? key x) eqn:E; [|auto].
  apply Z.eqb_eq in E. exfalso. apply Hy. rewrite E. now apply in_map.
Qed.

(** X6.  A POST to [add_student] with the three fields and an email that no
    student has leaves one more student: fetching the new identifier gives
    the row with the name and email of the form and the stored course
    reference, the identifier was not in the table, and every student that
    could be fetched before is fetched just the same. *)
Theorem add_student_then_get (s : store) (r : request)
    (name email course_id : string) :
  method r = POST ->
  form_get "name" (form r) = Some name ->
  form_get "email" (form r) = Some email ->
  form_get "course_id" (form r) = Some course_id ->
  (forall x, In x (student_rows s) -> Student.email x <> email) ->
  exists id,
    ~ In id (map Student.id (student_rows s)) /\
    Student_get id (snd (add_student integer_affinity r s))
    = Some {| Student.id := id; Student.name := name; Student.email := email;
              Student.course_id := integer_affinity course_id |} /\
    forall id' y, Student_get id' s = Some y ->
                  Student_get id' (snd (add_student integer_affinity r s)) = Some y.
Proof.
  intros Hm Hn He Hc Hfresh.
  rewrite (add_student_ignores_courses s r name email course_id Hm Hn He Hc Hfresh).
  cbn [snd]. exists (next_id (map Student.id (student_rows s))).
  split; [apply next_id_fresh|]. unfold Student_get. cbn [student_rows]. split.
  - rewrite find_snoc, find_key_absent by apply next_id_fresh.
    cbn [Student.id]. now rewrite Z.eqb_refl.
  - intros id' y Hy. rewrite find_snoc, Hy. reflexivity.
Qed.

(** X7.  A POST to [add_course] with its three fields always succeeds, with
    any [teacher_id]: the course table gets one new row for it, the other
    tables stay; and the listing of [courses] that follows holds the new
    course exactly when the table had fewer than ten courses. *)
Theorem add_course_then_listing (s : store) (r : request)
    (name description teacher_id : string) :
  method r = POST ->
  form_get "name" (form r) = Some name ->
  form_get "description" (form r) = Some description ->
  form_get "teacher_id" (form r) = Some teacher_id ->
  exists c l,
    add_course integer_affinity r s
    = (inr (redirect "courses" "Course added successfully!" "success"),
       {| teacher_rows := teacher_rows s;
          course_rows := course_rows s ++ [c];
          student_rows := student_rows s |}) /\
    Course.name c = name /\ Course.description c = Some description /\
    Course.teacher_id c = integer_affinity teacher_id /\
    ~ In (Course.id c) (map Course.id (course_rows s)) /\
    courses (snd (add_course integer_affinity r s))
    = (inr (render_template "courses.html" [course_list l]),
       snd (add_course integer_affinity r s)) /\
    (In c l <-> (List.length (course_rows s) < 10)%nat).
Proof.
  intros Hm Hn Hd Ht.
  set (c := {| Course.id := next_id (map Course.id (course_rows s));
               Course.name := name; Course.description := Some description;
               Course.teacher_id := integer_affinity teacher_id |}).
  assert (Hrun : add_course integer_affinity r s
                 = (inr (redirect "courses" "Course added successfully!" "success"),
                    {| teacher_rows := teacher_rows s;
                       course_rows := course_rows s ++ [c];
                       student_rows := student_rows s |})).
  { unfold_handler. rewrite Hm, Hn, Hd, Ht. reflexivity. }
  assert (Hnew : ~ In c (course_rows s)).
  { intros Hin. apply (next_id_fresh (map Course.id (course_rows s))).
    apply (in_map Course.id) in Hin. exact Hin. }
  exists c, (firstn 10 (course_rows s ++ [c])). rewrite Hrun. cbn [snd].
  split; [reflexivity|]. split; [reflexivity|]. split; [reflexivity|].
  split; [reflexivity|]. split; [apply next_id_fresh|]. split; [reflexivity|].
  split.
  - intros Hin.
    destruct (Nat.lt_ge_cases (List.length (course_rows s)) 10) as [Hlt|Hge];
      [exact Hlt|].
    rewrite firstn_app in Hin.
    replace (10 - List.length (course_rows s))%nat with 0%nat in Hin by lia.
    rewrite firstn_0, app_nil_r in Hin.
    exfalso. apply Hnew. rewrite <- (firstn_skipn 10 (course_rows s)).
    apply in_or_app. now left.
  - intros Hlt. rewrite firstn_all2 by (rewrite length_app; simpl; lia).
    apply in_or_app. right. now left.
Qed.

(** *** What a request leaves behind *)

(** X8.  Every route but [add_teacher] is all or nothing: when the request
    raises (not found, a missing form field, a constraint of the store), the
    store is as it was before the request. *)
Theorem single_commit_all_or_nothing (q : route) (s : store) (e : error) :
  (forall r, q <> route_add_teacher r) ->
  fst (handle integer_affinity q s) = inl e ->
  snd (handle integer_affinity q s) = s.
Proof.
  intros Hq. destruct q; try (exfalso; exact (Hq _ eq_refl));
    cbn [handle]; unfold_handler; unfold_transactions;
    unfold Student_query_order_by_name_all, Course_query_all,
      Course_query_limit_all, Teacher_query_all,
      Teacher_query_filter_name_like_all;
    destruct_matches; cbn [fst snd]; intros H; try discriminate H; reflexivity.
Qed.

(** X9.  A GET writes nothing on the routes that take a form
    ([add_student], [edit_student], [add_course], [add_teacher],
    [edit_teacher]), and the three listings write nothing. *)
Theorem get_writes_nothing (s : store) (id : Z) (r : request) :
  method r = GET ->
  snd (add_student integer_affinity r s) = s /\
  snd (edit_student integer_affinity id r s) = s /\
  snd (add_course integer_affinity r s) = s /\
  snd (add_teacher r s) = s /\
  snd (edit_teacher id r s) = s /\
  snd (index s) = s /\ snd (courses s) = s /\ snd (teachers s) = s.
Proof.
  intros Hm. unfold_handler. rewrite Hm.
  destruct (Student_get id s); destruct (Teacher_get id s);
    destruct (fits_int64 id); repeat split; reflexivity.
Qed.

(** X10.  When a POST to [edit_teacher] succeeds, the form held both
    fields; fetching the teacher again gives the identifier with the name
    and email of the form; every other teacher is fetched as before; and the
    course and student tables are as before, so the teacher's courses still
    refer to it. *)
Theorem edit_teacher_then_get (s : store) (id : Z) (r : request) (resp : response) :
  method r = POST ->
  fst (edit_teacher id r s) = inr resp ->
  exists name email,
    form_get "name" (form r) = Some name /\
    form_get "email" (form r) = Some email /\
    Teacher_get id (snd (edit_teacher id r s))
    = Some {| Teacher.id := id; Teacher.name := name; Teacher.email := email |} /\
    (forall id', id' <> id ->
                 Teacher_get id' (snd (edit_teacher id r s)) = Teacher_get id' s) /\
    course_rows (snd (edit_teacher id r s)) = course_rows s /\
    student_rows (snd (edit_teacher id r s)) = student_rows s.
Proof.
  intros Hm. unfold_handler. rewrite Hm.
  destruct (Teacher_get id s) as [t|] eqn:Hget;
    [|destruct (fits_int64 id); discriminate].
  pose proof (Teacher_get_id _ _ _ Hget) as [_ Hid].
  destruct (form_get "name" (form r)) as [name|]; [|discriminate].
  destruct (form_get "email" (form r)) as [email|]; [|discriminate].
  unfold update_teacher. rewrite Hid.
  destruct (existsb _ _); [discriminate|]. cbn [fst snd]. intros _.
  exists name, email. split; [reflexivity|]. split; [reflexivity|].
  unfold Teacher_get. cbn [teacher_rows course_rows student_rows].
  split; [|split; [|split; reflexivity]].
  - apply (find_updated Teacher.id id _ t); [reflexivity | exact Hget].
  - intros id' Hne. now apply (find_key_other_updated Teacher.id).
Qed.

(** X11.  A successful POST to [edit_student] changes one student only:
    every other student is fetched as before, the identifiers of the table
    are the same in the same order, and the teacher and course tables are as
    before. *)
Theorem edit_student_frame (s : store) (id : Z) (r : request) (resp : response) :
  method r = POST ->
  fst (edit_student integer_affinity id r s) = inr resp ->
  (forall id', id' <> id ->
               Student_get id' (snd (edit_student integer_affinity id r s))
               = Student_get id' s) /\
  map Student.id (student_rows (snd (edit_student integer_affinity id r s)))
  = map Student.id (student_rows s) /\
  teacher_rows (snd (edit_student integer_affinity id r s)) = teacher_rows s /\
  course_rows (snd (edit_student integer_affinity id r s)) = course_rows s.
Proof.
  intros Hm. unfold_handler. rewrite Hm.
  destruct (Student_get id s) as [x|] eqn:Hget;
    [|destruct (fits_int64 id); discriminate].
  pose proof (Student_get_id _ _ _ Hget) as [_ Hid].
  destruct (form_get "name" (form r)) as [name|]; [|discriminate].
  destruct (form_get "email" (form r)) as [email|]; [|discriminate].
  destruct (form_get "course_id" (form r)) as [course_id|]; [|discriminate].
  unfold update_student. rewrite Hid.
  destruct (existsb _ _); [discriminate|]. cbn [fst snd]. intros _.
  unfold Student_get. cbn [teacher_rows course_rows student_rows].
  split; [|split; [|split; reflexivity]].
  - intros id' Hne. now apply (find_key_other_updated Student.id).
  - now apply (map_key_update Student.id).
Qed.

(** *** The two steps of [add_teacher] *)

(** X12.  When a POST to [add_teacher] succeeds, the form held the four
    fields, the teacher table has one new teacher and the course table one
    new course, the course's [teacher_id] is the identifier of the new
    teacher, which fetches that teacher, and the student table is as
    before. *)
Theorem add_teacher_links_course (s : store) (r : request) (resp : response) :
  method r = POST ->
  fst (add_teacher r s) = inr resp ->
  exists name email course_name course_description t c,
    form_get "teacher_name" (form r) = Some name /\
    form_get "teacher_email" (form r) = Some email /\
    form_get "course_name" (form r) = Some course_name /\
    form_get "course_description" (form r) = Some course_description /\
    t = {| Teacher.id := next_id (map Teacher.id (teacher_rows s));
           Teacher.name := name; Teacher.email := email |} /\
    c = {| Course.id := next_id (map Course.id (course_rows s));
           Course.name := course_name;
           Course.description := Some course_description;
           Course.teacher_id := Int (Teacher.id t) |} /\
    snd (add_teacher r s)
    = {| teacher_rows := teacher_rows s ++ [t];
         course_rows := course_rows s ++ [c];
         student_rows := student_rows s |} /\
    Teacher_get (Teacher.id t) (snd (add_teacher r s)) = Some t /\
    resp = redirect "teachers" "Teacher and Course added successfully!" "success".
Proof.
  intros Hm. unfold_handler. rewrite Hm.
  destruct (form_get "teacher_name" (form r)) as [name|]; [|discriminate].
  destruct (form_get "teacher_email" (form r)) as [email|]; [|discriminate].
  unfold insert_teacher.
  destruct (existsb _ (teacher_rows s)); [discriminate|].
  destruct (form_get "course_name" (form r)) as [course_name|]; [|discriminate].
  destruct (form_get "course_description" (form r)) as [course_description|];
    [|discriminate].
  cbn [fst snd insert_course]. intros H. injection H as <-.
  do 6 eexists. repeat (split; [reflexivity|]).
  split; [|reflexivity].
  unfold Teacher_get. cbn [teacher_rows Teacher.id].
  rewrite find_snoc, find_key_absent by apply next_id_fresh.
  cbn [Teacher.id]. now rewrite Z.eqb_refl.
Qed.

(** X13.  When a request to [add_teacher] raises, either the store is as it
    was and the error is a missing teacher field or the uniqueness of the
    teacher's email, or the error is a missing course field and the store
    has the new teacher and, for the rest, is as it was. *)
Theorem add_teacher_failure (s : store) (r : request) (e : error) :
  fst (add_teacher r s) = inl e ->
  (snd (add_teacher r s) = s /\
   (e = BadRequestKeyError "teacher_name" \/
    e = BadRequestKeyError "teacher_email" \/
    e = IntegrityError unique_teacher_email)) \/
  ((e = BadRequestKeyError "course_name" \/
    e = BadRequestKeyError "course_description") /\
   exists t,
     snd (add_teacher r s)
     = {| teacher_rows := teacher_rows s ++ [t];
          course_rows := course_rows s;
          student_rows := student_rows s |}).
Proof.
  unfold_handler. destruct (method r); [discriminate|].
  destruct (form_get "teacher_name" (form r)) as [name|];
    [|intros H; injection H as <-; left; auto].
  destruct (form_get "teacher_email" (form r)) as [email|];
    [|intros H; injection H as <-; left; auto].
  unfold insert_teacher.
  destruct (existsb _ (teacher_rows s));
    [intros H; injection H as <-; left; auto|].
  destruct (form_get "course_name" (form r)) as [course_name|];
    [|intros H; injection H as <-; right; split; [auto | eexists; reflexivity]].
  destruct (form_get "course_description" (form r)) as [course_description|];
    [|intros H; injection H as <-; right; split; [auto | eexists; reflexivity]].
  discriminate.
Qed.

(** *** Deleting, and fetching afterwards *)

Lemma cell_eqb_eq (a b : cell) : cell_eqb a b = true <-> a = b.
Proof.
  destruct a as [x|x], b as [y|y]; simpl;
    try (split; [discriminate | intros H; discriminate H]).
  - rewrite Z.eqb_eq. split; congruence.
  - rewrite String.eqb_eq. split; congruence.
Qed.

(** X14.  For a teacher that exists: when a course refers to it,
    [delete_teacher] raises [IntegrityError] and the store is as it was;
    when no course refers to it, the request succeeds, the teacher is no
    longer fetched, every other teacher is fetched as before, and the course
    and student tables are as before. *)
Theorem delete_teacher_outcome (s : store) (id : Z) (t : Teacher.t) :
  Teacher_get id s = Some t ->
  ((exists c, In c (course_rows s) /\ Course.teacher_id c = Int id) ->
   delete_teacher id s = (inl (IntegrityError not_null_course_teacher_id), s)) /\
  ((forall c, In c (course_rows s) -> Course.teacher_id c <> Int id) ->
   fst (delete_teacher id s)
   = inr (redirect "teachers" "Teacher deleted successfully!" "danger") /\
   Teacher_get id (snd (delete_teacher id s)) = None /\
   (forall id', id' <> id ->
                Teacher_get id' (snd (delete_teacher id s)) = Teacher_get id' s) /\
   course_rows (snd (delete_teacher id s)) = course_rows s /\
   student_rows (snd (delete_teacher id s)) = student_rows s).
Proof.
  intros Hget. split.
  - intros (c & Hin & Hc). exact (delete_teacher_with_course s id t c Hget Hin Hc).
  - intros Hnone. pose proof (Teacher_get_id _ _ _ Hget) as [_ Hid].
    unfold_handler. rewrite Hget. unfold delete_teacher_row. rewrite Hid.
    rewrite existsb_none.
    + cbn [fst snd]. unfold Teacher_get. cbn [teacher_rows course_rows student_rows].
      split; [reflexivity|]. split; [apply (find_key_deleted Teacher.id)|].
      split; [|split; reflexivity].
      intros id' Hne. now apply (find_key_other_deleted Teacher.id).
    + intros c Hc. destruct (cell_eqb _ _) eqn:E; [|reflexivity].
      apply cell_eqb_eq in E. exfalso. exact (Hnone c Hc E).
Qed.

(** X15.  After an existing student was deleted, its identifier is not
    found: a second [delete_student] and any [edit_student] raise
    [NotFound] (for an identifier that the driver does not take, they raise
    [OverflowError] in its place) and write nothing; every other student is
    fetched as before. *)
Theorem delete_student_then_fetch (s : store) (id : Z) (x : Student.t) (r : request) :
  Student_get id s = Some x ->
  delete_student id (snd (delete_student id s))
  = (inl (if fits_int64 id then NotFound else OverflowError),
     snd (delete_student id s)) /\
  edit_student integer_affinity id r (snd (delete_student id s))
  = (inl (if fits_int64 id then NotFound else OverflowError),
     snd (delete_student id s)) /\
  (forall id', id' <> id ->
               Student_get id' (snd (delete_student id s)) = Student_get id' s).
Proof.
  intros Hget. rewrite (delete_student_found _ _ _ Hget). cbn [snd].
  assert (Hgone : Student_get id
                    {| teacher_rows := teacher_rows s;
                       course_rows := course_rows s;
                       student_rows := filter (fun y => negb (Student.id y =? id))
                                              (student_rows s) |} = None).
  { apply (find_key_deleted Student.id). }
  split; [|split].
  - unfold_handler. rewrite Hgone. destruct (fits_int64 id); reflexivity.
  - unfold_handler. rewrite Hgone. destruct (fits_int64 id); reflexivity.
  - intros id' Hne. now apply (find_key_other_deleted Student.id).
Qed.

(** *** Identifiers in the stores the application reaches *)

(** X16.  In every store the application can reach, an identifier names one
    row: fetching by the identifier of a row of the table gives that row, for
    students and for teachers, and no two courses have the same
    identifier. *)
Theorem reachable_fetch_by_identifier (s : store) :
  reachable integer_affinity s ->
  (forall x, In x (student_rows s) -> Student_get (Student.id x) s = Some x) /\
  (forall t, In t (teacher_rows s) -> Teacher_get (Teacher.id t) s = Some t) /\
  NoDup (map Course.id (course_rows s)).
Proof.
  intros Hreach.
  destruct (reachable_constraints_hold s Hreach) as (Hti & _ & Hci & Hsi & _).
  split; [|split; [|exact Hci]].
  - intros x Hx. now apply (find_key_unique Student.id).
  - intros t Ht. now apply (find_key_unique Teacher.id).
Qed.

(** *** Editing without changing the email *)

Lemma NoDup_map_same {Row Key} (key : Row -> Key) (rows : list Row) (x y : Row) :
  NoDup (map key rows) -> In x rows -> In y rows -> key x = key y -> x = y.
Proof.
  induction rows as [|z rows IH]; simpl; [tauto|].
  intros Hnd Hx Hy Hk. inversion Hnd as [|? ? Hz Hrest]; subst.
  destruct Hx as [->|Hx]; destruct Hy as [->|Hy]; auto.
  - exfalso. apply Hz. rewrite Hk. now apply in_map.
  - exfalso. apply Hz. rewrite <- Hk. now apply in_map.
Qed.

(** X19.  In a store the application can reach, an edit that keeps the
    row's own email is not taken for a duplicate: a POST to [edit_student]
    with the three fields and the student's present email succeeds, and so
    does a POST to [edit_teacher] with both fields and the teacher's present
    email. *)
Theorem edit_keeps_own_email (s : store) (id : Z) (r : request) :
  reachable integer_affinity s ->
  method r = POST ->
  (forall x name course_id,
      Student_get id s = Some x ->
      form_get "name" (form r) = Some name ->
      form_get "email" (form r) = Some (Student.email x) ->
      form_get "course_id" (form r) = Some course_id ->
      fst (edit_student integer_affinity id r s)
      = inr (redirect "index" "Student updated successfully!" "success")) /\
  (forall t name,
      Teacher_get id s = Some t ->
      form_get "name" (form r) = Some name ->
      form_get "email" (form r) = Some (Teacher.email t) ->
      fst (edit_teacher id r s)
      = inr (redirect "teachers" "Teacher updated successfully!" "success")).
Proof.
  intros Hreach Hm.
  destruct (reachable_constraints_hold s Hreach) as (_ & Hte & _ & _ & Hse).
  split.
  - intros x name course_id Hget Hn He Hc.
    pose proof (Student_get_id _ _ _ Hget) as [Hin Hid].
    unfold_handler. rewrite Hget, Hm, Hn, He, Hc. unfold update_student.
    rewrite existsb_none; [reflexivity|].
    intros y Hy. rewrite Hid.
    destruct (Student.id y =? id) eqn:E; [reflexivity|]. cbn [negb andb].
    apply String.eqb_neq. intros Hsame. apply Z.eqb_neq in E. apply E.
    rewrite (NoDup_map_same Student.email _ y x Hse Hy Hin Hsame). exact Hid.
  - intros t name Hget Hn He.
    pose proof (Teacher_get_id _ _ _ Hget) as [Hin Hid].
    unfold_handler. rewrite Hget, Hm, Hn, He. unfold update_teacher.
    rewrite existsb_none; [reflexivity|].
    intros u Hu. rewrite Hid.
    destruct (Teacher.id u =? id) eqn:E; [reflexivity|]. cbn [negb andb].
    apply String.eqb_neq. intros Hsame. apply Z.eqb_neq in E. apply E.
    rewrite (NoDup_map_same Teacher.email _ u t Hte Hu Hin Hsame). exact Hid.
Qed.

(** *** Which error a POST to [add_student] raises *)

(** X17.  A POST to [add_student] reads the fields in the order name, email,
    course_id and raises [BadRequestKeyError] for the first one the form
    lacks, before the store is asked anything; with the three fields and an
    email that a student has, it raises [IntegrityError]; it raises nothing
    else, and it never raises for the value of [course_id]. *)
Theorem add_student_errors (s : store) (r : request) :
  method r = POST ->
  (form_get "name" (form r) = None ->
   fst (add_student integer_affinity r s) = inl (BadRequestKeyError "name")) /\
  (form_get "name" (form r) <> None -> form_get "email" (form r) = None ->
   fst (add_student integer_affinity r s) = inl (BadRequestKeyError "email")) /\
  (form_get "name" (form r) <> None -> form_get "email" (form r) <> None ->
   form_get "course_id" (form r) = None ->
   fst (add_student integer_affinity r s) = inl (BadRequestKeyError "course_id")) /\
  (forall e, fst (add_student integer_affinity r s) = inl e ->
             e = BadRequestKeyError "name" \/ e = BadRequestKeyError "email" \/
             e = BadRequestKeyError "course_id" \/
             (e = IntegrityError unique_student_email /\
              exists x, In x (student_rows s)
                        /\ form_get "email" (form r) = Some (Student.email x))).
Proof.
  intros Hm. unfold_handler. rewrite Hm. unfold insert_student.
  destruct (form_get "name" (form r)) as [name|];
    destruct (form_get "email" (form r)) as [email|];
    destruct (form_get "course_id" (form r)) as [course_id|];
    repeat split; try congruence; try reflexivity;
    try (intros e H; injection H as <-; auto).
  intros e. destruct (existsb _ (student_rows s)) eqn:E; [|discriminate].
  intros H. injection H as <-. do 3 right. split; [reflexivity|].
  apply existsb_exists in E. destruct E as (x & Hx & Hemail).
  apply String.eqb_eq in Hemail. exists x. split; [exact Hx | congruence].
Qed.

End Part3_properties.

(** ** Storage initialization *)

Section Initialization.

Import Part3.

Lemma init_db_seeds (d : database) :
  exists s, init_db d = (inr tt, s)
            /\ teacher_rows s <> [] /\ course_rows s <> [].
Proof.
  unfold init_db. generalize (create_all d). intros [ts cs ss].
  destruct ts as [|t ts]; destruct cs as [|c cs];
    (eexists; split; [reflexivity | split; cbn; discriminate]).
Qed.

Lemma init_db_seeded (s : store) :
  teacher_rows s <> [] -> course_rows s <> [] ->
  init_db (present s) = (inr tt, s).
Proof.
  destruct s as [ts cs ss]. cbn. intros Ht Hc.
  destruct ts as [|t ts]; [contradiction|].
  destruct cs as [|c cs]; [contradiction|]. reflexivity.
Qed.

(** C9.  [init_db] is idempotent in both generations.  Generation A: a
    second run changes nothing, and a run on a store that has the table
    changes nothing.  Generation B: [init_db] always returns, and a second
    run on the store it leaves returns the same store; a run on a store
    that has teachers and courses changes nothing. *)
Theorem init_db_idempotent :
  (forall d, Part1.init_db (Part1.init_db d) = Part1.init_db d) /\
  (forall d t, Part1.students d = Some t -> Part1.init_db d = d) /\
  (forall d, exists s, init_db d = (inr tt, s)
                       /\ init_db (present s) = (inr tt, s)) /\
  (forall s, teacher_rows s <> [] -> course_rows s <> [] ->
             init_db (present s) = (inr tt, s)).
Proof.
  repeat split.
  - intros [[t|]]; reflexivity.
  - intros d t H. unfold Part1.init_db. rewrite H. reflexivity.
  - intros d. destruct (init_db_seeds d) as (s & Hs & Ht & Hc).
    exists s. split; [exact Hs | now apply init_db_seeded].
  - apply init_db_seeded.
Qed.

(** X18.  [init_db] changes and removes no row: the tables it leaves are the
    tables it found (empty where the table did not exist) followed by the
    rows it added; it adds teachers only to an empty teacher table and
    courses only to an empty course table, and never a student. *)
Theorem init_db_only_appends (d : database) :
  exists new_teachers new_courses,
    init_db d
    = (inr tt,
       {| teacher_rows := teacher_rows (create_all d) ++ new_teachers;
          course_rows := course_rows (create_all d) ++ new_courses;
          student_rows := student_rows (create_all d) |}) /\
    (teacher_rows (create_all d) <> [] -> new_teachers = []) /\
    (course_rows (create_all d) <> [] -> new_courses = []).
Proof.
  unfold init_db. generalize (create_all d). intros [ts cs ss].
  destruct ts as [|t ts]; destruct cs as [|c cs].
  - eexists _, _. split; [reflexivity|]. split; intros H; now elim H.
  - exists [{| Teacher.id := 1; Teacher.name := "Dr. Sharma";
               Teacher.email := "sharma@gmail.com" |};
            {| Teacher.id := 2; Teacher.name := "Prof. Mehta";
               Teacher.email := "mehta@gmail.com" |}], [].
    split; [cbn; now rewrite app_nil_r|]. split; [intros H; now elim H | auto].
  - exists [], [{| Course.id := 1; Course.name := "Python Basics";
                   Course.description := Some "Intro to Python";
                   Course.teacher_id := Int 1 |};
                {| Course.id := 2; Course.name := "Web Development";
                   Course.description := Some "Flask & Web";
                   Course.teacher_id := Int 2 |};
                {| Course.id := 3; Course.name := "Data Science";
                   Course.description := Some "Data Analysis";
                   Course.teacher_id := Int 1 |}].
    split; [cbn; now rewrite app_nil_r|]. split; [auto | intros H; now elim H].
  - exists [], []. split; [cbn; now rewrite !app_nil_r|]. auto.
Qed.

End Initialization.

(** ** The handlers on concrete requests *)

Section Examples.

Import Part3.

(** C3.  There is a reachable store and a POST to [add_teacher] on it
    whose course step raises (the form has no [course_name]) after the
    teacher was committed: the request fails, the store it leaves has a
    teacher it did not have, the course table is as before, and no course
    refers to the new teacher. *)
Theorem add_teacher_is_not_atomic :
  exists (s : store) (r : request) (t : Teacher.t),
    reachable decimal_affinity s /\
    fst (add_teacher r s) = inl (BadRequestKeyError "course_name") /\
    ~ In t (teacher_rows s) /\
    In t (teacher_rows (snd (add_teacher r s))) /\
    course_rows (snd (add_teacher r s)) = course_rows s /\
    (forall c, In c (course_rows (snd (add_teacher r s))) ->
               Course.teacher_id c <> Int (Teacher.id t)).
Proof.
  exists seeded, (post asha_form), asha.
  split; [apply reachable_start|].
  rewrite (add_teacher_without_course_name seeded (post asha_form)
             "Asha" "asha@gmail.com");
    try reflexivity.
  - cbn [fst snd teacher_rows course_rows].
    split; [reflexivity|]. split; [|split; [|split; [reflexivity|]]].
    + vm_compute. intros [H|[H|[]]]; discriminate H.
    + vm_compute. auto.
    + vm_compute. intros c [<-|[<-|[<-|[]]]]; discriminate.
  - vm_compute. intros t [<-|[<-|[]]]; discriminate.
Qed.

(** C2.  The seeded store has no course 99, and a POST to [add_student]
    whose [course_id] is 99 is answered with the redirect of a success and
    leaves the student in the store, with the course reference 99. *)
Example add_student_accepts_unknown_course :
  Course_get 99 seeded = None /\
  decimal_affinity "99" = Int 99 /\
  add_student decimal_affinity (post ravi_form) seeded
  = (inr (redirect "index" "Student added successfully!" "success"),
     {| teacher_rows := teacher_rows seeded;
        course_rows := course_rows seeded;
        student_rows := [ravi] |}).
Proof. vm_compute. repeat split; reflexivity. Qed.

(** C1 as stated fails: the email of Bob is new, the POST to [add_teacher]
    succeeds and leaves the row of Bob in the teacher table, and the
    listing of [teachers] that follows does not hold it. *)
Lemma teacher_without_letter_a_not_listed :
  (forall t, In t (teacher_rows seeded) -> Teacher.email t <> "bob@gmail.com") /\
  fst (add_teacher (post bob_form) seeded)
  = inr (redirect "teachers" "Teacher and Course added successfully!" "success") /\
  In bob (teacher_rows (snd (add_teacher (post bob_form) seeded))) /\
  exists l,
    fst (teachers (snd (add_teacher (post bob_form) seeded)))
    = inr (render_template "teachers.html" [teacher_list l]) /\
    count_occ Teacher_eq_dec l bob = 0%nat /\
    ~ In bob l.
Proof.
  split; [vm_compute; intros t [<-|[<-|[]]]; discriminate|].
  split; [reflexivity|]. split; [vm_compute; auto|].
  eexists. split; [vm_compute; reflexivity|].
  split; [vm_compute; reflexivity|].
  intros [H|[H|[]]]; discriminate H.
Qed.

(** A teacher whose name has a letter a only behind a NUL character is
    added and not listed. *)
Lemma teacher_with_a_behind_nul_not_listed :
  (exists t, teacher_rows (snd (add_teacher (post behind_nul_form) seeded))
             = teacher_rows seeded ++ [t]
             /\ In "a"%char (list_ascii_of_string (Teacher.name t))) /\
  fst (teachers (snd (add_teacher (post behind_nul_form) seeded)))
  = fst (teachers seeded).
Proof.
  split; [|reflexivity]. eexists. split; [reflexivity|]. simpl. auto.
Qed.

(** The listing after the teacher Asha was added to the seeded store. *)
Lemma add_teacher_then_listing_witness :
  (forall t, In t (teacher_rows seeded) -> Teacher.email t <> "asha@gmail.com") /\
  exists t l,
    Teacher.name t = "Asha" /\ Teacher.email t = "asha@gmail.com" /\
    ~ In t (teacher_rows seeded) /\
    teacher_rows (snd (add_teacher (post asha_form) seeded))
    = teacher_rows seeded ++ [t] /\
    teachers (snd (add_teacher (post asha_form) seeded))
    = (inr (render_template "teachers.html" [teacher_list l]),
       snd (add_teacher (post asha_form) seeded)) /\
    count_occ Teacher_eq_dec l t = (if like "Asha" "%a%" then 1 else 0)%nat /\
    (like "Asha" "%a%" = true
     <-> exists c, In c (until_nul (list_ascii_of_string "Asha"))
                   /\ (c = "a"%char \/ c = "A"%char)).
Proof.
  assert (H : forall t, In t (teacher_rows seeded)
                        -> Teacher.email t <> "asha@gmail.com").
  { vm_compute. intros t [<-|[<-|[]]]; discriminate. }
  split; [exact H|].
  apply (add_teacher_then_listing seeded (post asha_form) "Asha" "asha@gmail.com");
    [reflexivity | reflexivity | reflexivity | exact H].
Defined.



Lemma enrolled_reachable : reachable decimal_affinity enrolled.
Proof. unfold enrolled. do 2 apply reachable_request. apply reachable_start. Qed.

(** The store with the students Ravi and Mira: emails are unique, and the
    four requests that would repeat an email are refused. *)
Lemma email_uniqueness_witness :
  reachable decimal_affinity enrolled /\
  NoDup (map Teacher.email (teacher_rows enrolled)) /\
  NoDup (map Student.email (student_rows enrolled)) /\
  add_student decimal_affinity (post ravi_form) enrolled
  = (inl (IntegrityError unique_student_email), enrolled) /\
  edit_student decimal_affinity 2 (post ravi_form) enrolled
  = (inl (IntegrityError unique_student_email), enrolled) /\
  add_teacher (post sharma_again_form) enrolled
  = (inl (IntegrityError unique_teacher_email), enrolled) /\
  edit_teacher 2 (post take_sharma_email_form) enrolled
  = (inl (IntegrityError unique_teacher_email), enrolled).
Proof.
  destruct (email_uniqueness decimal_affinity enrolled enrolled_reachable)
    as ((Ht & Hs) & Hadd & Hedit & Haddt & Heditt).
  split; [exact enrolled_reachable|]. split; [exact Ht|]. split; [exact Hs|].
  split; [|split; [|split]].
  - apply (Hadd (post ravi_form) "Ravi" "ravi@gmail.com" "99" ravi);
      try reflexivity.
    vm_compute. auto.
  - apply (Hedit 2 (post ravi_form) "Ravi" "ravi@gmail.com" "99" mira ravi);
      try reflexivity.
    + vm_compute. auto.
    + discriminate.
  - apply (Haddt (post sharma_again_form) "S. Sharma" "sharma@gmail.com"
             {| Teacher.id := 1; Teacher.name := "Dr. Sharma";
                Teacher.email := "sharma@gmail.com" |});
      try reflexivity.
    vm_compute. auto.
  - apply (Heditt 2 (post take_sharma_email_form) "Prof. Mehta" "sharma@gmail.com"
             {| Teacher.id := 2; Teacher.name := "Prof. Mehta";
                Teacher.email := "mehta@gmail.com" |}
             {| Teacher.id := 1; Teacher.name := "Dr. Sharma";
                Teacher.email := "sharma@gmail.com" |});
      try reflexivity.
    + vm_compute. auto.
    + discriminate.
Defined.

(** Editing the student Ravi and fetching the row again. *)
Lemma edit_student_then_get_witness :
  method (post ravi_edit_form) = POST /\
  fst (edit_student decimal_affinity 1 (post ravi_edit_form) enrolled)
  = inr (redirect "index" "Student updated successfully!" "success") /\
  exists name email course_id,
    form_get "name" (form (post ravi_edit_form)) = Some name /\
    form_get "email" (form (post ravi_edit_form)) = Some email /\
    form_get "course_id" (form (post ravi_edit_form)) = Some course_id /\
    Student_get 1 (snd (edit_student decimal_affinity 1 (post ravi_edit_form) enrolled))
    = Some {| Student.id := 1; Student.name := name; Student.email := email;
              Student.course_id := decimal_affinity course_id |}.
Proof.
  split; [reflexivity|]. split; [reflexivity|].
  apply (edit_student_then_get decimal_affinity enrolled 1 (post ravi_edit_form)
           (redirect "index" "Student updated successfully!" "success"));
    reflexivity.
Defined.

(** Deleting the student Ravi. *)
Lemma delete_student_frame_witness :
  Student_get 1 enrolled = Some ravi /\
  fst (delete_student 1 enrolled)
  = inr (redirect "index" "Student deleted successfully!" "danger") /\
  (exists l,
      index (snd (delete_student 1 enrolled))
      = (inr (render_template "index.html" [student_list l]),
         snd (delete_student 1 enrolled)) /\
      (forall y, In y l <-> In y (student_rows enrolled) /\ Student.id y <> 1)) /\
  course_rows (snd (delete_student 1 enrolled)) = course_rows enrolled /\
  (forall cid, Course_get cid (snd (delete_student 1 enrolled))
               = Course_get cid enrolled).
Proof.
  split; [reflexivity|].
  apply (delete_student_frame enrolled 1 ravi). reflexivity.
Defined.

(** A second [init_db] on the seeded store, and on a store of Generation A
    that has its table. *)
Lemma init_db_idempotent_witness :
  Part1.students (Part1.init_db Part1.empty_database)
  = Some {| Part1.rows := []; Part1.sequence := 0 |} /\
  Part1.init_db (Part1.init_db Part1.empty_database)
  = Part1.init_db Part1.empty_database /\
  teacher_rows seeded <> [] /\ course_rows seeded <> [] /\
  init_db (present seeded) = (inr tt, seeded).
Proof.
  destruct init_db_idempotent as (_ & HA & _ & HB).
  split; [reflexivity|].
  split; [apply (HA (Part1.init_db Part1.empty_database)
                    {| Part1.rows := []; Part1.sequence := 0 |}); reflexivity|].
  assert (Ht : teacher_rows seeded <> []) by (vm_compute; discriminate).
  assert (Hc : course_rows seeded <> []) by (vm_compute; discriminate).
  split; [exact Ht|]. split; [exact Hc|]. apply HB; assumption.
Defined.

(** *** More requests *)

(** Two requests on a database of Generation A without its table. *)
Lemma requests_without_table_witness :
  Part1.students Part1.empty_database = None /\
  Part1.serve [Part1.route_add; Part1.route_index] Part1.empty_database
  = ([inl Part1.no_such_table; inl Part1.no_such_table], Part1.empty_database).
Proof.
  split; [reflexivity|].
  apply (requests_without_table [Part1.route_add; Part1.route_index]
           Part1.empty_database).
  reflexivity.
Defined.

(** A request to [/add] and a listing on the new table of Generation A. *)
Lemma requests_only_append_witness :
  Part1.students (Part1.init_db Part1.empty_database)
  = Some {| Part1.rows := []; Part1.sequence := 0 |} /\
  NoDup (map Part1.id (Part1.rows {| Part1.rows := []; Part1.sequence := 0 |})) /\
  exists t' new,
    Part1.students (snd (Part1.serve [Part1.route_add; Part1.route_index]
                           (Part1.init_db Part1.empty_database))) = Some t' /\
    Part1.rows t' = Part1.rows {| Part1.rows := []; Part1.sequence := 0 |} ++ new /\
    NoDup (map Part1.id (Part1.rows t')).
Proof.
  split; [reflexivity|]. split; [constructor|].
  apply (requests_only_append [Part1.route_add; Part1.route_index]
           (Part1.init_db Part1.empty_database)
           {| Part1.rows := []; Part1.sequence := 0 |});
    [reflexivity | constructor].
Defined.

(** The student Ravi added to the seeded store, and fetched. *)
Lemma add_student_then_get_witness :
  (forall x, In x (student_rows seeded) -> Student.email x <> "ravi@gmail.com") /\
  exists id,
    ~ In id (map Student.id (student_rows seeded)) /\
    Student_get id (snd (add_student decimal_affinity (post ravi_form) seeded))
    = Some {| Student.id := id; Student.name := "Ravi";
              Student.email := "ravi@gmail.com";
              Student.course_id := decimal_affinity "99" |} /\
    forall id' y, Student_get id' seeded = Some y ->
                  Student_get id' (snd (add_student decimal_affinity
                                          (post ravi_form) seeded)) = Some y.
Proof.
  assert (H : forall x, In x (student_rows seeded)
                        -> Student.email x <> "ravi@gmail.com").
  { vm_compute. intros x []. }
  split; [exact H|].
  apply (add_student_then_get decimal_affinity seeded (post ravi_form)
           "Ravi" "ravi@gmail.com" "99");
    [reflexivity | reflexivity | reflexivity | reflexivity | exact H].
Defined.

(** A course for the teacher 42, who does not exist, added to the seeded
    store, which has three courses. *)
Lemma add_course_then_listing_witness :
  Teacher_get 42 seeded = None /\
  exists c l,
    add_course decimal_affinity (post statistics_form) seeded
    = (inr (redirect "courses" "Course added successfully!" "success"),
       {| teacher_rows := teacher_rows seeded;
          course_rows := course_rows seeded ++ [c];
          student_rows := student_rows seeded |}) /\
    Course.name c = "Statistics" /\ Course.description c = Some "Numbers" /\
    Course.teacher_id c = decimal_affinity "42" /\
    ~ In (Course.id c) (map Course.id (course_rows seeded)) /\
    courses (snd (add_course decimal_affinity (post statistics_form) seeded))
    = (inr (render_template "courses.html" [course_list l]),
       snd (add_course decimal_affinity (post statistics_form) seeded)) /\
    (In c l <-> (List.length (course_rows seeded) < 10)%nat).
Proof.
  split; [reflexivity|].
  apply (add_course_then_listing decimal_affinity seeded (post statistics_form)
           "Statistics" "Numbers" "42");
    reflexivity.
Defined.

(** A student form with the email of Ravi, refused, leaves the store. *)
Lemma single_commit_all_or_nothing_witness :
  (forall r, route_add (post ravi_form) <> route_add_teacher r) /\
  fst (handle decimal_affinity (route_add (post ravi_form)) enrolled)
  = inl (IntegrityError unique_student_email) /\
  snd (handle decimal_affinity (route_add (post ravi_form)) enrolled) = enrolled.
Proof.
  assert (H : forall r, route_add (post ravi_form) <> route_add_teacher r)
    by (intros r; discriminate).
  split; [exact H|]. split; [reflexivity|].
  apply (single_commit_all_or_nothing decimal_affinity (route_add (post ravi_form))
           enrolled (IntegrityError unique_student_email));
    [exact H | reflexivity].
Defined.

(** GET requests on the store with the two students. *)
Lemma get_writes_nothing_witness :
  method get_request = GET /\
  snd (add_student decimal_affinity get_request enrolled) = enrolled /\
  snd (edit_student decimal_affinity 1 get_request enrolled) = enrolled /\
  snd (add_course decimal_affinity get_request enrolled) = enrolled /\
  snd (add_teacher get_request enrolled) = enrolled /\
  snd (edit_teacher 1 get_request enrolled) = enrolled /\
  snd (index enrolled) = enrolled /\ snd (courses enrolled) = enrolled /\
  snd (teachers enrolled) = enrolled.
Proof.
  split; [reflexivity|].
  apply (get_writes_nothing decimal_affinity enrolled 1 get_request). reflexivity.
Defined.

(** Editing the seeded teacher Prof. Mehta. *)
Lemma edit_teacher_then_get_witness :
  method (post mehta_edit_form) = POST /\
  fst (edit_teacher 2 (post mehta_edit_form) seeded)
  = inr (redirect "teachers" "Teacher updated successfully!" "success") /\
  exists name email,
    form_get "name" (form (post mehta_edit_form)) = Some name /\
    form_get "email" (form (post mehta_edit_form)) = Some email /\
    Teacher_get 2 (snd (edit_teacher 2 (post mehta_edit_form) seeded))
    = Some {| Teacher.id := 2; Teacher.name := name; Teacher.email := email |} /\
    (forall id', id' <> 2 ->
                 Teacher_get id' (snd (edit_teacher 2 (post mehta_edit_form) seeded))
                 = Teacher_get id' seeded) /\
    course_rows (snd (edit_teacher 2 (post mehta_edit_form) seeded))
    = course_rows seeded /\
    student_rows (snd (edit_teacher 2 (post mehta_edit_form) seeded))
    = student_rows seeded.
Proof.
  split; [reflexivity|]. split; [reflexivity|].
  apply (edit_teacher_then_get seeded 2 (post mehta_edit_form)
           (redirect "teachers" "Teacher updated successfully!" "success"));
    reflexivity.
Defined.

(** Editing the student Ravi leaves the student Mira. *)
Lemma edit_student_frame_witness :
  method (post ravi_edit_form) = POST /\
  fst (edit_student decimal_affinity 1 (post ravi_edit_form) enrolled)
  = inr (redirect "index" "Student updated successfully!" "success") /\
  (forall id', id' <> 1 ->
               Student_get id' (snd (edit_student decimal_affinity 1
                                       (post ravi_edit_form) enrolled))
               = Student_get id' enrolled) /\
  map Student.id (student_rows (snd (edit_student decimal_affinity 1
                                       (post ravi_edit_form) enrolled)))
  = map Student.id (student_rows enrolled) /\
  teacher_rows (snd (edit_student decimal_affinity 1 (post ravi_edit_form) enrolled))
  = teacher_rows enrolled /\
  course_rows (snd (edit_student decimal_affinity 1 (post ravi_edit_form) enrolled))
  = course_rows enrolled.
Proof.
  split; [reflexivity|]. split; [reflexivity|].
  apply (edit_student_frame decimal_affinity enrolled 1 (post ravi_edit_form)
           (redirect "index" "Student updated successfully!" "success"));
    reflexivity.
Defined.

(** The teacher Bob and the course Algebra added to the seeded store. *)
Lemma add_teacher_links_course_witness :
  method (post bob_form) = POST /\
  fst (add_teacher (post bob_form) seeded)
  = inr (redirect "teachers" "Teacher and Course added successfully!" "success") /\
  exists t c,
    snd (add_teacher (post bob_form) seeded)
    = {| teacher_rows := teacher_rows seeded ++ [t];
         course_rows := course_rows seeded ++ [c];
         student_rows := student_rows seeded |} /\
    Course.teacher_id c = Int (Teacher.id t) /\
    Teacher_get (Teacher.id t) (snd (add_teacher (post bob_form) seeded)) = Some t.
Proof.
  split; [reflexivity|]. split; [reflexivity|].
  destruct (add_teacher_links_course seeded (post bob_form)
              (redirect "teachers" "Teacher and Course added successfully!" "success")
              eq_refl eq_refl)
    as (name & email & cn & cd & t & c & _ & _ & _ & _ & _ & Hc & Hs & Hget & _).
  exists t, c. split; [exact Hs|]. split; [|exact Hget].
  rewrite Hc. reflexivity.
Defined.

(** The teacher Asha without a course name. *)
Lemma add_teacher_failure_witness :
  fst (add_teacher (post asha_form) seeded) = inl (BadRequestKeyError "course_name") /\
  ((snd (add_teacher (post asha_form) seeded) = seeded /\
    (BadRequestKeyError "course_name" = BadRequestKeyError "teacher_name" \/
     BadRequestKeyError "course_name" = BadRequestKeyError "teacher_email" \/
     BadRequestKeyError "course_name" = IntegrityError unique_teacher_email)) \/
   ((BadRequestKeyError "course_name" = BadRequestKeyError "course_name" \/
     BadRequestKeyError "course_name" = BadRequestKeyError "course_description") /\
    exists t,
      snd (add_teacher (post asha_form) seeded)
      = {| teacher_rows := teacher_rows seeded ++ [t];
           course_rows := course_rows seeded;
           student_rows := student_rows seeded |})).
Proof.
  split; [reflexivity|].
  apply (add_teacher_failure seeded (post asha_form)
           (BadRequestKeyError "course_name")).
  reflexivity.
Defined.

(** Deleting Dr. Sharma, who has courses, and Asha, who has none. *)
Lemma delete_teacher_outcome_witness :
  Teacher_get 1 with_asha
  = Some {| Teacher.id := 1; Teacher.name := "Dr. Sharma";
            Teacher.email := "sharma@gmail.com" |} /\
  Teacher_get 3 with_asha = Some asha /\
  delete_teacher 1 with_asha
  = (inl (IntegrityError not_null_course_teacher_id), with_asha) /\
  fst (delete_teacher 3 with_asha)
  = inr (redirect "teachers" "Teacher deleted successfully!" "danger") /\
  Teacher_get 3 (snd (delete_teacher 3 with_asha)) = None.
Proof.
  split; [reflexivity|]. split; [reflexivity|].
  destruct (delete_teacher_outcome with_asha 1
              {| Teacher.id := 1; Teacher.name := "Dr. Sharma";
                 Teacher.email := "sharma@gmail.com" |} eq_refl) as [Hrefused _].
  destruct (delete_teacher_outcome with_asha 3 asha eq_refl) as [_ Hdone].
  split.
  - apply Hrefused.
    exists {| Course.id := 1; Course.name := "Python Basics";
              Course.description := Some "Intro to Python";
              Course.teacher_id := Int 1 |}.
    split; [vm_compute; auto | reflexivity].
  - destruct Hdone as (H1 & H2 & _).
    + vm_compute. intros c [<-|[<-|[<-|[]]]]; discriminate.
    + split; assumption.
Defined.

(** Deleting the student Ravi, and asking for him again. *)
Lemma delete_student_then_fetch_witness :
  Student_get 1 enrolled = Some ravi /\
  delete_student 1 (snd (delete_student 1 enrolled))
  = (inl (if fits_int64 1 then NotFound else OverflowError),
     snd (delete_student 1 enrolled)) /\
  edit_student decimal_affinity 1 (post ravi_edit_form) (snd (delete_student 1 enrolled))
  = (inl (if fits_int64 1 then NotFound else OverflowError),
     snd (delete_student 1 enrolled)) /\
  (forall id', id' <> 1 ->
               Student_get id' (snd (delete_student 1 enrolled))
               = Student_get id' enrolled).
Proof.
  split; [reflexivity|].
  apply (delete_student_then_fetch decimal_affinity enrolled 1 ravi
           (post ravi_edit_form)).
  reflexivity.
Defined.

(** Fetching by identifier in the store with the two students. *)
Lemma reachable_fetch_by_identifier_witness :
  reachable decimal_affinity enrolled /\
  (forall x, In x (student_rows enrolled) -> Student_get (Student.id x) enrolled = Some x) /\
  (forall t, In t (teacher_rows enrolled) -> Teacher_get (Teacher.id t) enrolled = Some t) /\
  NoDup (map Course.id (course_rows enrolled)).
Proof.
  split; [exact enrolled_reachable|].
  apply (reachable_fetch_by_identifier decimal_affinity enrolled).
  exact enrolled_reachable.
Defined.

(** A student form without an email, and one with the email of Ravi. *)
Lemma add_student_errors_witness :
  method (post nameless_email_form) = POST /\
  form_get "name" (form (post nameless_email_form)) <> None /\
  form_get "email" (form (post nameless_email_form)) = None /\
  fst (add_student decimal_affinity (post nameless_email_form) enrolled)
  = inl (BadRequestKeyError "email").
Proof.
  split; [reflexivity|]. split; [discriminate|]. split; [reflexivity|].
  destruct (add_student_errors decimal_affinity enrolled (post nameless_email_form)
              eq_refl) as (_ & H & _).
  apply H; [discriminate | reflexivity].
Defined.

(** [init_db] on the file of the seeded store adds nothing. *)
Lemma init_db_only_appends_witness :
  teacher_rows (create_all (present seeded)) <> [] /\
  course_rows (create_all (present seeded)) <> [] /\
  init_db (present seeded)
  = (inr tt,
     {| teacher_rows := teacher_rows (create_all (present seeded)) ++ [];
        course_rows := course_rows (create_all (present seeded)) ++ [];
        student_rows := student_rows (create_all (present seeded)) |}).
Proof.
  assert (Ht : teacher_rows (create_all (present seeded)) <> [])
    by (vm_compute; discriminate).
  assert (Hc : course_rows (create_all (present seeded)) <> [])
    by (vm_compute; discriminate).
  split; [exact Ht|]. split; [exact Hc|].
  destruct (init_db_only_appends (present seeded)) as (ts & cs & Hrun & Hts & Hcs).
  rewrite Hrun, (Hts Ht), (Hcs Hc). reflexivity.
Defined.

(** Editing the student Mira and the teacher Prof. Mehta, emails kept. *)
Lemma edit_keeps_own_email_witness :
  reachable decimal_affinity enrolled /\
  Student_get 2 enrolled = Some mira /\
  fst (edit_student decimal_affinity 2 (post mira_edit_form) enrolled)
  = inr (redirect "index" "Student updated successfully!" "success").
Proof.
  split; [exact enrolled_reachable|]. split; [reflexivity|].
  destruct (edit_keeps_own_email decimal_affinity enrolled 2 (post mira_edit_form)
              enrolled_reachable eq_refl) as [H _].
  apply (H mira "Mira Nair" "3"); reflexivity.
Defined.

End Examples.
